(** * Storage models: files, folders and users

    A shallow embedding of the Go model package of the file-storage
    service ([pkg/models/file.go], [pkg/models/user.go] and the folder
    model), together with the properties of its methods.

    Conventions of the embedding:
    - Go [int] and [int64] values are integers in [Z]; [int64] arithmetic
      wraps around and is written with [add64] and [sub64];
    - Go strings are byte strings, here [string];
    - a nullable pointer [*T] is an [option T];
    - a field keeps its Go name; where two structs have a field of the
      same name, the later one carries the name of its struct as well
      ([UserCreatedAt], [FolderSharedWith], ...);
    - a method with a pointer receiver is a computation in the state monad
      [Method S], whose state is the receiver: it returns a result and the
      receiver as the method leaves it;
    - the clock ([time.Now]) and the generator of identifiers
      ([primitive.NewObjectID]) are effects of the environment; the
      functions that call them take the value read as an argument. *)

From Stdlib Require Import ZArith Lia Ascii String List Permutation.
From stdpp Require Import gmap strings list.

Local Open Scope string_scope.
Local Open Scope Z_scope.

(** ** Machine integers *)

Definition min_int64 : Z := - 2 ^ 63.
Definition max_int64 : Z := 2 ^ 63 - 1.

(** The values an [int64] can hold. *)
Definition int64_range (z : Z) : Prop := min_int64 <= z <= max_int64.

(** Two's complement wrap-around of a mathematical integer to 64 bits. *)
Definition wrap64 (z : Z) : Z := (z + 2 ^ 63) mod 2 ^ 64 - 2 ^ 63.

(** [a + b] and [a - b] on [int64]. *)
Definition add64 (a b : Z) : Z := wrap64 (a + b).
Definition sub64 (a b : Z) : Z := wrap64 (a - b).

(** ** Methods with a pointer receiver *)

Definition Method (S A : Type) : Type := S -> A * S.

Definition ret {S A : Type} (a : A) : Method S A := fun s => (a, s).

Definition bind {S A B : Type} (m : Method S A) (k : A -> Method S B) : Method S B :=
  fun s => let (a, s') := m s in k a s'.

(** The receiver as it is now. *)
Definition self {S : Type} : Method S S := fun s => (s, s).

(** An assignment to the receiver's fields. *)
Definition assign {S : Type} (f : S -> S) : Method S unit := fun s => (tt, f s).

(** The result of a method call, and the receiver after it. *)
Definition result {S A : Type} (m : Method S A) (s : S) : A := fst (m s).
Definition after {S A : Type} (m : Method S A) (s : S) : S := snd (m s).

Notation "'let*' x := m 'in' k" := (bind m (fun x => k))
  (at level 10, x name, m at level 100, k at level 200).
Notation "m >>> k" := (bind m (fun _ => k))
  (at level 90, right associativity).

(** ** Library functions of Go used by the models *)

(** [len(s)] of a string, in bytes. *)
Definition len (s : string) : Z := Z.of_nat (String.length s).

(** [s[:n]]: the first [n] bytes of [s]. Go panics when [n] is outside
    [0 .. len(s)]; [None] stands for the panic. *)
Definition slice_to (s : string) (n : Z) : option string :=
  if (0 <=? n) && (n <=? len s) then Some (substring 0 (Z.to_nat n) s) else None.

(** [strings.HasPrefix]. *)
Definition HasPrefix (s p : string) : bool := String.prefix p s.

(** The scan behind [strings.LastIndex]: [s] is the part of the string
    still to be read, [i] the index of its first byte, [found] the last
    index seen so far at which [sep] occurs. *)
Fixpoint LastIndex_scan (s sep : string) (i found : Z) : Z :=
  let found' := if HasPrefix s sep then i else found in
  match s with
  | EmptyString => found'
  | String _ s' => LastIndex_scan s' sep (i + 1) found'
  end.

(** [strings.LastIndex(s, sep)]: the index of the last instance of [sep]
    in [s], or [-1] if [sep] does not occur in [s]. *)
Definition LastIndex (s sep : string) : Z := LastIndex_scan s sep 0 (-1).

(** ** Identifiers and time *)

(** [primitive.ObjectID]: an array of 12 bytes. *)
Definition ObjectID : Type := list Byte.byte.

Definition hex_digit (n : N) : ascii :=
  nth (N.to_nat n) (list_ascii_of_string "0123456789abcdef") "0"%char.

(** [ObjectID.Hex]: two lower-case hexadecimal digits per byte. *)
Fixpoint Hex (id : ObjectID) : string :=
  match id with
  | [] => EmptyString
  | b :: id' =>
      let n := Byte.to_N b in
      String (hex_digit (n / 16)) (String (hex_digit (n mod 16)) (Hex id'))
  end.

(** [time.Time]: an instant, as a number of nanoseconds. *)
Definition Time : Type := Z.

(** ** The file model ([pkg/models/file.go]) *)

(** [ProcessingStatus], [UploadStatus] and [FilePermission] are string
    types with named constants. *)
Definition ProcessingStatus : Type := string.
Definition ProcessingPending : ProcessingStatus := "pending".
Definition ProcessingInProgress : ProcessingStatus := "processing".
Definition ProcessingCompleted : ProcessingStatus := "completed".
Definition ProcessingFailed : ProcessingStatus := "failed".

Definition UploadStatus : Type := string.
Definition UploadInitiated : UploadStatus := "initiated".
Definition UploadInProgress : UploadStatus := "in_progress".
Definition UploadCompleted : UploadStatus := "completed".
Definition UploadAborted : UploadStatus := "aborted".

Definition FilePermission : Type := string.
Definition PermissionRead : FilePermission := "read".
Definition PermissionWrite : FilePermission := "write".
Definition PermissionAdmin : FilePermission := "admin".

(** A chunk of a multipart upload. *)
Record UploadChunk : Type := mkUploadChunk {
  PartNumber : Z;
  ETag : string;
  UploadedAt : Time;
  Size : Z
}.

(** A user a file or folder is shared with. *)
Record SharedUser : Type := mkSharedUser {
  SharedUserID : ObjectID;
  Permission : FilePermission;
  SharedAt : Time;
  SharedBy : ObjectID
}.

(** The values stored under [interface{}] in the metadata map. *)
Inductive MetaValue : Type :=
  | MetaString (s : string)
  | MetaInt (z : Z)
  | MetaBool (b : bool).

Record File : Type := mkFile {
  ID : ObjectID;
  UserID : ObjectID;
  FileName : string;
  FolderID : option ObjectID;
  FilePath : string;
  S3Key : string;
  S3Bucket : string;
  S3Region : string;
  FileSize : Z;
  MimeType : string;
  Checksum : string;
  Version : Z;
  IsLatest : bool;
  ParentFileID : option ObjectID;
  FileProcessingStatus : ProcessingStatus;
  ThumbnailURL : option string;
  CompressedURL : option string;
  Metadata : gmap string MetaValue;
  UploadID : string;
  Chunks : list UploadChunk;
  FileUploadStatus : UploadStatus;
  OwnerID : ObjectID;
  SharedWith : list SharedUser;
  IsPublic : bool;
  PublicURL : option string;
  CreatedAt : Time;
  UpdatedAt : Time;
  DeletedAt : option Time;
  LastAccessedAt : option Time
}.

(** Assignments to the fields of a file that the methods write. *)
Definition set_Chunks (cs : list UploadChunk) (f : File) : File :=
  mkFile (ID f) (UserID f) (FileName f) (FolderID f) (FilePath f) (S3Key f)
    (S3Bucket f) (S3Region f) (FileSize f) (MimeType f) (Checksum f)
    (Version f) (IsLatest f) (ParentFileID f) (FileProcessingStatus f)
    (ThumbnailURL f) (CompressedURL f) (Metadata f) (UploadID f) cs
    (FileUploadStatus f) (OwnerID f) (SharedWith f) (IsPublic f)
    (PublicURL f) (CreatedAt f) (UpdatedAt f) (DeletedAt f)
    (LastAccessedAt f).

Definition set_UploadID (id : string) (f : File) : File :=
  mkFile (ID f) (UserID f) (FileName f) (FolderID f) (FilePath f) (S3Key f)
    (S3Bucket f) (S3Region f) (FileSize f) (MimeType f) (Checksum f)
    (Version f) (IsLatest f) (ParentFileID f) (FileProcessingStatus f)
    (ThumbnailURL f) (CompressedURL f) (Metadata f) id (Chunks f)
    (FileUploadStatus f) (OwnerID f) (SharedWith f) (IsPublic f)
    (PublicURL f) (CreatedAt f) (UpdatedAt f) (DeletedAt f)
    (LastAccessedAt f).

Definition set_UploadStatus (st : UploadStatus) (f : File) : File :=
  mkFile (ID f) (UserID f) (FileName f) (FolderID f) (FilePath f) (S3Key f)
    (S3Bucket f) (S3Region f) (FileSize f) (MimeType f) (Checksum f)
    (Version f) (IsLatest f) (ParentFileID f) (FileProcessingStatus f)
    (ThumbnailURL f) (CompressedURL f) (Metadata f) (UploadID f) (Chunks f)
    st (OwnerID f) (SharedWith f) (IsPublic f)
    (PublicURL f) (CreatedAt f) (UpdatedAt f) (DeletedAt f)
    (LastAccessedAt f).

(** A map literal [map[string]bool] read at a key: an absent key reads as
    the zero value [false]. *)
Definition index_bool (m : gmap string bool) (k : string) : bool :=
  default false (m !! k).

(** [IsActive]: the file is not soft-deleted. *)
Definition IsActive : Method File bool :=
  let* f := self in
  ret (bool_decide (DeletedAt f = None)).

(** [IsImage]: the MIME type has at least 6 bytes and its first 6 bytes
    are ["image/"]. The slice [f.MimeType[:6]] is taken only when the
    test of the length, the left operand of [&&], has passed; [None]
    stands for the panic of a slice out of range. *)
Definition IsImage : Method File (option bool) :=
  let* f := self in
  if 6 <=? len (MimeType f) then
    match slice_to (MimeType f) 6 with
    | Some prefix => ret (Some (String.eqb prefix "image/"))
    | None => ret None
    end
  else ret (Some false).

(** [IsVideo]: the same with ["video/"]. *)
Definition IsVideo : Method File (option bool) :=
  let* f := self in
  if 6 <=? len (MimeType f) then
    match slice_to (MimeType f) 6 with
    | Some prefix => ret (Some (String.eqb prefix "video/"))
    | None => ret None
    end
  else ret (Some false).

Definition docTypes : gmap string bool :=
  <["application/pdf" := true]>
  (<["application/msword" := true]>
  (<["application/vnd.openxmlformats-officedocument.wordprocessingml.document" := true]>
  (<["application/vnd.ms-excel" := true]>
  (<["application/vnd.openxmlformats-officedocument.spreadsheetml.sheet" := true]>
  (<["text/plain" := true]> ∅))))).

(** [IsDocument]: the MIME type is one of the document types. *)
Definition IsDocument : Method File bool :=
  let* f := self in
  ret (index_bool docTypes (MimeType f)).

Definition compressedFormats : gmap string bool :=
  <["image/jpeg" := true]>
  (<["image/jpg" := true]>
  (<["image/png" := true]>
  (<["video/mp4" := true]>
  (<["video/x-matroska" := true]>
  (<["application/zip" := true]>
  (<["application/x-rar-compressed" := true]> ∅)))))).

(** [CanCompress]: formats that are compressed already are refused; of the
    others, documents, plain text and JSON are accepted. The operands of
    [||] are evaluated from the left, and only as far as needed. *)
Definition CanCompress : Method File bool :=
  let* f := self in
  if index_bool compressedFormats (MimeType f) then ret false
  else
    let* doc := IsDocument in
    if doc then ret true
    else ret (String.eqb (MimeType f) "text/plain"
              || String.eqb (MimeType f) "application/json").

(** The loop over [SharedWith] of [IsSharedWith]. *)
Fixpoint IsSharedWith_loop (shared : list SharedUser) (userID : ObjectID) : bool :=
  match shared with
  | [] => false
  | sh :: rest =>
      if String.eqb (Hex (SharedUserID sh)) (Hex userID) then true
      else IsSharedWith_loop rest userID
  end.

Definition IsSharedWith (userID : ObjectID) : Method File bool :=
  let* f := self in
  ret (IsSharedWith_loop (SharedWith f) userID).

(** The loop over [SharedWith] of [GetPermission]: the permission of the
    first entry for the user, or [("", false)]. *)
Fixpoint GetPermission_loop (shared : list SharedUser) (userID : ObjectID)
  : FilePermission * bool :=
  match shared with
  | [] => ("", false)
  | sh :: rest =>
      if String.eqb (Hex (SharedUserID sh)) (Hex userID) then (Permission sh, true)
      else GetPermission_loop rest userID
  end.

(** [GetPermission]: the owner has admin permission; any other user has
    the permission the file is shared with, if any. *)
Definition GetPermission (userID : ObjectID) : Method File (FilePermission * bool) :=
  let* f := self in
  if String.eqb (Hex (OwnerID f)) (Hex userID) then ret (PermissionAdmin, true)
  else ret (GetPermission_loop (SharedWith f) userID).

(** [AddChunk]: appends a chunk to the tracking list; [now] is the time
    read from the clock. *)
Definition AddChunk (now : Time) (partNumber : Z) (etag : string) (size : Z)
  : Method File unit :=
  let chunk := mkUploadChunk partNumber etag now size in
  let* f := self in
  assign (set_Chunks (Chunks f ++ [chunk])).

(** [AllChunksUploaded]: the number of chunks recorded is the number
    expected. *)
Definition AllChunksUploaded (expectedChunks : Z) : Method File bool :=
  let* f := self in
  ret (Z.of_nat (length (Chunks f)) =? expectedChunks).

(** [NewFile]: a new file with default values; [now] is the time read
    from the clock and [newID] the identifier generated. *)
Definition NewFile (now : Time) (newID : ObjectID)
    (userID : ObjectID) (fileName : string) (fileSize : Z)
    (mimeType s3Key s3Bucket s3Region checksum : string) : File :=
  {| ID := newID;
     UserID := userID;
     FileName := fileName;
     FolderID := None;
     FilePath := "/" ++ fileName;
     S3Key := s3Key;
     S3Bucket := s3Bucket;
     S3Region := s3Region;
     FileSize := fileSize;
     MimeType := mimeType;
     Checksum := checksum;
     Version := 1;
     IsLatest := true;
     ParentFileID := None;
     FileProcessingStatus := ProcessingPending;
     ThumbnailURL := None;
     CompressedURL := None;
     Metadata := ∅;
     UploadID := "";
     Chunks := [];
     FileUploadStatus := UploadCompleted;
     OwnerID := userID;
     SharedWith := [];
     IsPublic := false;
     PublicURL := None;
     CreatedAt := now;
     UpdatedAt := now;
     DeletedAt := None;
     LastAccessedAt := None |}.

(** [NewFileForChunkedUpload]: a new file whose upload has been initiated. *)
Definition NewFileForChunkedUpload (now : Time) (newID : ObjectID)
    (userID : ObjectID) (fileName : string) (fileSize : Z)
    (mimeType s3Key s3Bucket s3Region uploadID : string) : File :=
  let file := NewFile now newID userID fileName fileSize mimeType s3Key s3Bucket s3Region "" in
  set_UploadStatus UploadInitiated (set_UploadID uploadID file).

(** ** The user model ([pkg/models/user.go]) *)

Record APIKey : Type := mkAPIKey {
  Key : string;
  KeyName : string;
  KeyCreatedAt : Time;
  LastUsedAt : option Time;
  ExpiresAt : option Time
}.

(** The token bucket of the rate limiter. [Tokens] is a [float64], kept
    as its 64-bit pattern: no method of the model computes with it. *)
Record RateLimitInfo : Type := mkRateLimitInfo {
  RequestsPerMinute : Z;
  Tokens : Z;
  LastRefill : Time
}.

Record User : Type := mkUser {
  UserIDField : ObjectID;
  Email : string;
  PasswordHash : string;
  Name : string;
  Role : string;
  StorageQuota : Z;
  StorageUsed : Z;
  APIKeys : list APIKey;
  RateLimit : RateLimitInfo;
  UserCreatedAt : Time;
  UserUpdatedAt : Time;
  UserDeletedAt : option Time
}.

(** The assignment [u.StorageUsed = v]. *)
Definition set_StorageUsed (v : Z) (u : User) : User :=
  mkUser (UserIDField u) (Email u) (PasswordHash u) (Name u) (Role u)
    (StorageQuota u) v (APIKeys u) (RateLimit u) (UserCreatedAt u)
    (UserUpdatedAt u) (UserDeletedAt u).

(** [HasStorageSpace]: the current usage plus the size of the new file is
    at most the quota; the sum is an [int64] sum. *)
Definition HasStorageSpace (fileSize : Z) : Method User bool :=
  let* u := self in
  ret (add64 (StorageUsed u) fileSize <=? StorageQuota u).

Definition IsAdmin : Method User bool :=
  let* u := self in
  ret (String.eqb (Role u) "admin").

Definition IsPremium : Method User bool :=
  let* u := self in
  ret (String.eqb (Role u) "premium" || String.eqb (Role u) "admin").

(** [RemainingStorage]: quota minus usage, or 0 when that is negative. *)
Definition RemainingStorage : Method User Z :=
  let* u := self in
  let remaining := sub64 (StorageQuota u) (StorageUsed u) in
  if remaining <? 0 then ret 0 else ret remaining.

(** [AddStorage]: [u.StorageUsed += bytes]. *)
Definition AddStorage (bytes : Z) : Method User unit :=
  let* u := self in
  assign (set_StorageUsed (add64 (StorageUsed u) bytes)).

(** [RemoveStorage]: [u.StorageUsed -= bytes], then a negative usage is
    reset to 0. *)
Definition RemoveStorage (bytes : Z) : Method User unit :=
  (let* u := self in
   assign (set_StorageUsed (sub64 (StorageUsed u) bytes))) >>>
  let* u := self in
  if StorageUsed u <? 0 then assign (set_StorageUsed 0) else ret tt.

(** ** The folder model *)

Record Folder : Type := mkFolder {
  FolderIDField : ObjectID;
  FolderName : string;
  FolderUserID : ObjectID;
  ParentFolderID : option ObjectID;
  Path : string;
  Color : string;
  Icon : string;
  FolderSharedWith : list SharedUser;
  FolderCreatedAt : Time;
  FolderUpdatedAt : Time;
  FolderDeletedAt : option Time
}.

(** [IsRootLevel]: the folder has no parent. *)
Definition IsRootLevel : Method Folder bool :=
  let* f := self in
  ret (bool_decide (ParentFolderID f = None)).

(** [GetParentPath]: the path before its last ["/"], or [""] when the
    last ["/"] is the first byte or there is none. [None] stands for the
    panic of a slice out of range. *)
Definition GetParentPath : Method Folder (option string) :=
  let* f := self in
  let lastSlash := LastIndex (Path f) "/" in
  if lastSlash <=? 0 then ret (Some "")
  else ret (slice_to (Path f) lastSlash).

(** [NewFolder]: a new folder under the parent of path [parentPath];
    [now] is the time read from the clock and [newID] the identifier
    generated. The fields the constructor does not list have their zero
    value. *)
Definition NewFolder (now : Time) (newID : ObjectID)
    (userID : ObjectID) (name : string) (parentFolderID : option ObjectID)
    (parentPath : string) : Folder :=
  let path :=
    if String.eqb parentPath "" then "/" ++ name
    else parentPath ++ "/" ++ name in
  {| FolderIDField := newID;
     FolderName := name;
     FolderUserID := userID;
     ParentFolderID := parentFolderID;
     Path := path;
     Color := "";
     Icon := "";
     FolderSharedWith := [];
     FolderCreatedAt := now;
     FolderUpdatedAt := now;
     FolderDeletedAt := None |}.

(** [NewRootFolder]: a folder at the root level. *)
Definition NewRootFolder (now : Time) (newID : ObjectID)
    (userID : ObjectID) (name : string) : Folder :=
  NewFolder now newID userID name None "".

(** ** Notions used in the statements *)

(** The chunk indices recorded for a file, in the order of recording. *)
Definition indices (f : File) : list Z := map PartNumber (Chunks f).

(** The indices [l] are exactly the set [{1..n}]: none is recorded twice,
    none is missing and none is outside. *)
Definition exactly_1_to (n : Z) (l : list Z) : Prop :=
  NoDup l /\ forall i, i ∈ l <-> 1 <= i <= n.

(** A record is current and live: it is the latest version and it is not
    soft-deleted. *)
Definition current_and_live (f : File) : bool :=
  IsLatest f && result IsActive f.

(** The invariant of a lineage: at most one of its records is current and
    live. *)
Definition at_most_one_current (lineage : list File) : Prop :=
  (length (filter (fun f => current_and_live f = true) lineage) <= 1)%nat.

(** The name [s] contains no ["/"]. *)
Fixpoint no_slash (s : string) : bool :=
  match s with
  | EmptyString => true
  | String c s' => negb (Ascii.eqb c "/"%char) && no_slash s'
  end.

(** ** Sample data *)

Definition sample_id (b : Byte.byte) : ObjectID := repeat b 12.

Definition alice : ObjectID := sample_id Byte.x0a.
Definition bob : ObjectID := sample_id Byte.x0b.

Definition sample_user (quota used : Z) : User :=
  {| UserIDField := alice;
     Email := "alice@example.com";
     PasswordHash := "";
     Name := "Alice";
     Role := "user";
     StorageQuota := quota;
     StorageUsed := used;
     APIKeys := [];
     RateLimit := mkRateLimitInfo 60 0 0;
     UserCreatedAt := 0;
     UserUpdatedAt := 0;
     UserDeletedAt := None |}.

(** A file of a chunked upload of Alice's, with nothing recorded yet. *)
Definition sample_upload : File :=
  NewFileForChunkedUpload 0 (sample_id Byte.x01) alice "large.zip" 10485760
    "application/zip" "users/a/files/large.zip" "file-storage" "us-east-1" "upload-1".

(** The same upload after chunk 1 has been recorded once, and twice. *)
Definition sample_upload_1 : File :=
  after (AddChunk 1 1 "etag1" 5242880) sample_upload.
Definition sample_upload_1_1 : File :=
  after (AddChunk 2 1 "etag1" 5242880) sample_upload_1.

(** The same upload after chunks 1 and 2 have been recorded. *)
Definition sample_upload_1_2 : File :=
  after (AddChunk 2 2 "etag2" 5242880) sample_upload_1.

(** A PDF document of Alice's, shared with Bob, and with Alice herself,
    for reading. *)
Definition sample_document : File :=
  let f := NewFile 0 (sample_id Byte.x02) alice "report.pdf" 1048576
             "application/pdf" "users/a/files/report.pdf" "file-storage"
             "us-east-1" "e3b0c442" in
  mkFile (ID f) (UserID f) (FileName f) (FolderID f) (FilePath f) (S3Key f)
    (S3Bucket f) (S3Region f) (FileSize f) (MimeType f) (Checksum f)
    (Version f) (IsLatest f) (ParentFileID f) (FileProcessingStatus f)
    (ThumbnailURL f) (CompressedURL f) (Metadata f) (UploadID f) (Chunks f)
    (FileUploadStatus f) (OwnerID f)
    [mkSharedUser alice PermissionRead 0 alice; mkSharedUser bob PermissionRead 0 alice]
    (IsPublic f) (PublicURL f) (CreatedAt f) (UpdatedAt f) (DeletedAt f)
    (LastAccessedAt f).

(** ** The rest of the user model ([pkg/models/user.go]) *)

(** [User.IsActive]: the user is not soft-deleted. *)
Definition UserIsActive : Method User bool :=
  let* u := self in
  ret (bool_decide (UserDeletedAt u = None)).

(** The error of a failed validation: the field and the reason. *)
Record ValidationError : Type := mkValidationError {
  Field : string;
  Message : string
}.

(** [ValidationError.Error]. *)
Definition ValidationError_Error (e : ValidationError) : string := Message e.

Definition validRoles : gmap string bool :=
  <["user" := true]> (<["premium" := true]> (<["admin" := true]> ∅)).

(** [Validate]: the first rule that the user breaks, or [None] (Go's
    [nil]) when the user is valid. *)
Definition Validate : Method User (option ValidationError) :=
  let* u := self in
  if String.eqb (Email u) "" then
    ret (Some (mkValidationError "email" "email is required"))
  else if String.eqb (Name u) "" then
    ret (Some (mkValidationError "name" "name is required"))
  else if String.eqb (Role u) "" then
    ret (Some (mkValidationError "role" "role is required"))
  else if negb (index_bool validRoles (Role u)) then
    ret (Some (mkValidationError "role" "role must be one of: user, premium, admin"))
  else if StorageQuota u <=? 0 then
    ret (Some (mkValidationError "storage_quota" "storage quota must be positive"))
  else ret None.

(** The conversion [float64(n)] of an integer, as the 64-bit pattern of
    the result: sign, biased exponent and 52 bits of mantissa, rounded to
    nearest, ties to even. A mantissa that rounds up to [2^53] carries
    into the exponent. *)
Definition float64_of_int (n : Z) : Z :=
  if n =? 0 then 0
  else
    let sign := if n <? 0 then 2 ^ 63 else 0 in
    let a := Z.abs n in
    let e := Z.log2 a in
    let m :=
      if e <=? 52 then Z.shiftl a (52 - e)
      else
        let sh := e - 52 in
        let q := Z.shiftr a sh in
        let r := Z.land a (2 ^ sh - 1) in
        let half := 2 ^ (sh - 1) in
        if (half <? r) || ((r =? half) && Z.odd q) then q + 1 else q in
    sign + (e + 1023) * 2 ^ 52 + (m - 2 ^ 52).

(** [NewUser]: a new user with the quota and the rate limit of the role;
    a role other than "premium" and "admin" has those of "user". [now] is
    the time read from the clock and [newID] the identifier generated. *)
Definition NewUser (now : Time) (newID : ObjectID) (email name role : string) : User :=
  let quota :=
    if String.eqb role "premium" then 100 * 1024 * 1024 * 1024
    else if String.eqb role "admin" then 1024 * 1024 * 1024 * 1024
    else 10 * 1024 * 1024 * 1024 in
  let requestsPerMin :=
    if String.eqb role "premium" then 300
    else if String.eqb role "admin" then 1000
    else 60 in
  {| UserIDField := newID;
     Email := email;
     PasswordHash := "";
     Name := name;
     Role := role;
     StorageQuota := quota;
     StorageUsed := 0;
     APIKeys := [];
     RateLimit := {| RequestsPerMinute := requestsPerMin;
                     Tokens := float64_of_int requestsPerMin;
                     LastRefill := now |};
     UserCreatedAt := now;
     UserUpdatedAt := now;
     UserDeletedAt := None |}.

(** ** The rest of the folder model *)

(** [Folder.IsActive]: the folder is not soft-deleted. *)
Definition FolderIsActive : Method Folder bool :=
  let* f := self in
  ret (bool_decide (FolderDeletedAt f = None)).

(** The byte [c] is one of the bytes of [cutset]. *)
Definition in_cutset (c : ascii) (cutset : string) : bool :=
  existsb (Ascii.eqb c) (list_ascii_of_string cutset).

(** [strings.TrimLeft] and [strings.TrimRight] for a cutset of ASCII
    bytes: the string without its leading, or trailing, bytes of the
    cutset. *)
Fixpoint TrimLeft (s cutset : string) : string :=
  match s with
  | EmptyString => EmptyString
  | String c s' => if in_cutset c cutset then TrimLeft s' cutset else s
  end.

Fixpoint TrimRight (s cutset : string) : string :=
  match s with
  | EmptyString => EmptyString
  | String c s' =>
      match TrimRight s' cutset with
      | EmptyString => if in_cutset c cutset then EmptyString else String c EmptyString
      | t => String c t
      end
  end.

(** [strings.Trim]: both ends are trimmed. *)
Definition Trim (s cutset : string) : string := TrimLeft (TrimRight s cutset) cutset.

(** [strings.Count(s, sep)] for a separator of one byte [c]: the number
    of bytes of [s] that are [c]. *)
Fixpoint CountByte (s : string) (c : ascii) : Z :=
  match s with
  | EmptyString => 0
  | String c' s' => (if Ascii.eqb c' c then 1 else 0) + CountByte s' c
  end.

(** [GetDepth]: the number of names on the path. The sum does not wrap:
    the count is less than the length of the trimmed path, which does not
    end in ["/"]. *)
Definition GetDepth : Method Folder Z :=
  let* f := self in
  let trimmed := Trim (Path f) "/" in
  if String.eqb trimmed "" then ret 0
  else ret (CountByte trimmed "/"%char + 1).

(** [Folder.IsSharedWith]. *)
Definition FolderIsSharedWith (userID : ObjectID) : Method Folder bool :=
  let* f := self in
  ret (IsSharedWith_loop (FolderSharedWith f) userID).

(** [Folder.GetPermission]: the owner of a folder is its [UserID]. *)
Definition FolderGetPermission (userID : ObjectID) : Method Folder (FilePermission * bool) :=
  let* f := self in
  if String.eqb (Hex (FolderUserID f)) (Hex userID) then ret (PermissionAdmin, true)
  else ret (GetPermission_loop (FolderSharedWith f) userID).

(** ** The version model ([pkg/models/version.go]) *)

Record FileVersion : Type := mkFileVersion {
  VersionID : ObjectID;
  VersionFileID : ObjectID;
  VersionNumber : Z;
  VersionS3Key : string;
  VersionS3Bucket : string;
  VersionS3Region : string;
  VersionFileSize : Z;
  VersionChecksum : string;
  ChangesDescription : string;
  CreatedBy : ObjectID;
  VersionCreatedAt : Time;
  RestoredAt : option Time
}.

(** [WasRestored]: the version has a restoration timestamp. *)
Definition WasRestored : Method FileVersion bool :=
  let* fv := self in
  ret (negb (bool_decide (RestoredAt fv = None))).

(** [IsDuplicate]: the two versions have the same checksum. *)
Definition IsDuplicate (other : FileVersion) : Method FileVersion bool :=
  let* fv := self in
  ret (String.eqb (VersionChecksum fv) (VersionChecksum other)).

(** [GetStoragePath]: the S3 key of the version. *)
Definition GetStoragePath : Method FileVersion string :=
  let* fv := self in
  ret (VersionS3Key fv).

(** [NewFileVersion]: a new version record; [now] is the time read from
    the clock and [newID] the identifier generated. *)
Definition NewFileVersion (now : Time) (newID : ObjectID)
    (fileID : ObjectID) (versionNumber : Z) (s3Key s3Bucket s3Region : string)
    (fileSize : Z) (checksum changesDesc : string) (createdBy : ObjectID)
  : FileVersion :=
  {| VersionID := newID;
     VersionFileID := fileID;
     VersionNumber := versionNumber;
     VersionS3Key := s3Key;
     VersionS3Bucket := s3Bucket;
     VersionS3Region := s3Region;
     VersionFileSize := fileSize;
     VersionChecksum := checksum;
     ChangesDescription := changesDesc;
     CreatedBy := createdBy;
     VersionCreatedAt := now;
     RestoredAt := None |}.

(** ** More notions used in the statements *)

(** The value of a hexadecimal digit in lower case, and the byte that
    two of them encode: the inverse of the encoding of [Hex]. *)
Definition unhex_digit (c : ascii) : N :=
  let n := N_of_ascii c in
  if (n <=? 57)%N then (n - 48)%N else (n - 87)%N.

Definition unhex_byte (hi lo : ascii) : option Byte.byte :=
  Byte.of_N (16 * unhex_digit hi + unhex_digit lo).

(** The MIME types that [CanCompress] accepts. *)
Definition compressible_types : list string :=
  [ "application/pdf"; "application/msword";
    "application/vnd.openxmlformats-officedocument.wordprocessingml.document";
    "application/vnd.ms-excel";
    "application/vnd.openxmlformats-officedocument.spreadsheetml.sheet";
    "text/plain"; "application/json" ].

(** A chunk to record: the time of the call, the part number, the tag and
    the size. *)
Record ChunkCall : Type := mkChunkCall {
  call_time : Time;
  call_part : Z;
  call_etag : string;
  call_size : Z
}.

Definition chunk_of_call (c : ChunkCall) : UploadChunk :=
  mkUploadChunk (call_part c) (call_etag c) (call_time c) (call_size c).

(** The calls of [AddChunk] for the chunks [calls], one after the other. *)
Fixpoint AddChunks (calls : list ChunkCall) : Method File unit :=
  match calls with
  | [] => ret tt
  | c :: rest =>
      AddChunk (call_time c) (call_part c) (call_etag c) (call_size c) >>>
      AddChunks rest
  end.

(** The sharing of a file with a list of users: the assignment
    [file.SharedWith = append(file.SharedWith, shared...)] of the callers. *)
Definition share_with (shared : list SharedUser) (f : File) : File :=
  mkFile (ID f) (UserID f) (FileName f) (FolderID f) (FilePath f) (S3Key f)
    (S3Bucket f) (S3Region f) (FileSize f) (MimeType f) (Checksum f)
    (Version f) (IsLatest f) (ParentFileID f) (FileProcessingStatus f)
    (ThumbnailURL f) (CompressedURL f) (Metadata f) (UploadID f) (Chunks f)
    (FileUploadStatus f) (OwnerID f) (SharedWith f ++ shared)
    (IsPublic f) (PublicURL f) (CreatedAt f) (UpdatedAt f) (DeletedAt f)
    (LastAccessedAt f).

Definition carol : ObjectID := sample_id Byte.x0c.

(** A bitmap image of Alice's, shared with Bob for reading and then, a
    second time, for writing. *)
Definition sample_image : File :=
  share_with
    [mkSharedUser bob PermissionRead 1 alice; mkSharedUser bob PermissionWrite 2 alice]
    (NewFile 0 (sample_id Byte.x05) alice "scan.bmp" 2097152 "image/bmp"
       "users/a/files/scan.bmp" "file-storage" "us-east-1" "9f86d081").

(** Every byte of [s] is ["/"]. *)
Fixpoint all_slash (s : string) : bool :=
  match s with
  | EmptyString => true
  | String c s' => Ascii.eqb c "/"%char && all_slash s'
  end.

(** The last byte of [s] is ["/"]. *)
Fixpoint last_is_slash (s : string) : bool :=
  match s with
  | EmptyString => false
  | String c EmptyString => Ascii.eqb c "/"%char
  | String _ s' => last_is_slash s'
  end.

(** A name of a folder that keeps the paths well formed: it is not empty
    and it contains no ["/"]. *)
Definition valid_name (n : string) : bool := negb (String.eqb n "") && no_slash n.

(** The path made of the names [names], each after a ["/"]. *)
Fixpoint path_of (names : list string) : string :=
  match names with
  | [] => ""
  | n :: rest => "/" ++ n ++ path_of rest
  end.

(** [nested names f]: the folder [f] was made by [NewRootFolder] with the
    first of the valid names [names] and, for each further name, by
    [NewFolder] under the folder made so far, the way the callers nest
    folders. *)
Inductive nested : list string -> Folder -> Prop :=
  | nested_root (now : Time) (newID userID : ObjectID) (n : string) :
      valid_name n = true ->
      nested [n] (NewRootFolder now newID userID n)
  | nested_child (now : Time) (newID userID : ObjectID) (n : string)
      (names : list string) (parent : Folder) :
      valid_name n = true ->
      nested names parent ->
      nested (names ++ [n])
        (NewFolder now newID userID n (Some (FolderIDField parent)) (Path parent)).

(** The folders "/Documents" and "/Documents/Work" of Alice. *)
Definition sample_documents : Folder :=
  NewRootFolder 0 (sample_id Byte.x10) alice "Documents".
Definition sample_work : Folder :=
  NewFolder 1 (sample_id Byte.x11) alice "Work"
    (Some (FolderIDField sample_documents)) (Path sample_documents).

(** ** The errors package ([pkg/errors]) *)

(** An application error, and the values of the interface [error]: [nil]
    is [None]; an error is an [*AppError], or an error of another type
    with its message and the error that its [Unwrap] returns, if any (as
    [fmt.Errorf] makes one with the verb [%w]). *)
#[warnings="-register-all"] Inductive AppError : Type :=
  | mkAppError (code message : string) (statusCode : Z) (err : option error)
with error : Type :=
  | ErrApp (e : AppError)
  | ErrOther (msg : string) (wrapped : option error).

Definition AppCode (e : AppError) : string :=
  match e with mkAppError code _ _ _ => code end.
Definition AppMessage (e : AppError) : string :=
  match e with mkAppError _ message _ _ => message end.
Definition AppStatusCode (e : AppError) : Z :=
  match e with mkAppError _ _ statusCode _ => statusCode end.
Definition AppErr (e : AppError) : option error :=
  match e with mkAppError _ _ _ err => err end.

(** [AppError.Error]: the message, followed by the message of the error
    wrapped, if any ([fmt.Sprintf("%s: %v", e.Message, e.Err)]); and the
    method [Error] of an [error]. *)
Fixpoint AppError_Error (e : AppError) : string :=
  match e with
  | mkAppError _ message _ (Some err) => message ++ ": " ++ error_Error err
  | mkAppError _ message _ None => message
  end
with error_Error (err : error) : string :=
  match err with
  | ErrApp e => AppError_Error e
  | ErrOther msg _ => msg
  end.

(** [AppError.Unwrap]. *)
Definition Unwrap (e : AppError) : option error := AppErr e.

Definition StatusBadRequest : Z := 400.
Definition StatusUnauthorized : Z := 401.
Definition StatusForbidden : Z := 403.
Definition StatusNotFound : Z := 404.
Definition StatusConflict : Z := 409.
Definition StatusRequestEntityTooLarge : Z := 413.
Definition StatusTooManyRequests : Z := 429.
Definition StatusInternalServerError : Z := 500.
Definition StatusServiceUnavailable : Z := 503.

Definition ErrNotFound : AppError :=
  mkAppError "NOT_FOUND" "Resource not found" StatusNotFound None.
Definition ErrUnauthorized : AppError :=
  mkAppError "UNAUTHORIZED" "Unauthorized access" StatusUnauthorized None.
Definition ErrForbidden : AppError :=
  mkAppError "FORBIDDEN" "Forbidden" StatusForbidden None.
Definition ErrBadRequest : AppError :=
  mkAppError "BAD_REQUEST" "Invalid request" StatusBadRequest None.
Definition ErrConflict : AppError :=
  mkAppError "CONFLICT" "Resource conflict" StatusConflict None.
Definition ErrInternalServer : AppError :=
  mkAppError "INTERNAL_SERVER_ERROR" "Internal server error" StatusInternalServerError None.
Definition ErrServiceUnavailable : AppError :=
  mkAppError "SERVICE_UNAVAILABLE" "Service temporarily unavailable"
    StatusServiceUnavailable None.
Definition ErrTooManyRequests : AppError :=
  mkAppError "TOO_MANY_REQUESTS" "Rate limit exceeded" StatusTooManyRequests None.
Definition ErrInvalidToken : AppError :=
  mkAppError "INVALID_TOKEN" "Invalid or expired token" StatusUnauthorized None.
Definition ErrInvalidCredentials : AppError :=
  mkAppError "INVALID_CREDENTIALS" "Invalid username or password" StatusUnauthorized None.
Definition ErrFileTooLarge : AppError :=
  mkAppError "FILE_TOO_LARGE" "File exceeds maximum allowed size"
    StatusRequestEntityTooLarge None.
Definition ErrStorageQuotaExceeded : AppError :=
  mkAppError "STORAGE_QUOTA_EXCEEDED" "Storage quota exceeded" StatusForbidden None.
Definition ErrUnsupportedFileType : AppError :=
  mkAppError "UNSUPPORTED_FILE_TYPE" "File type is not supported" StatusBadRequest None.

(** [New], [Wrap] and [WrapWithCode]. *)
Definition New (code message : string) (statusCode : Z) : AppError :=
  mkAppError code message statusCode None.

Definition Wrap (err : option error) (message : string) : AppError :=
  mkAppError "INTERNAL_ERROR" message StatusInternalServerError err.

Definition WrapWithCode (err : option error) (code message : string) (statusCode : Z)
  : AppError :=
  mkAppError code message statusCode err.

(** The walk of [errors.As] with a target of type [*AppError]: the first
    [*AppError] on the chain of [err], which is [err] itself when it is
    one, and otherwise the first one on the chain of the error that [err]
    wraps. *)
Fixpoint As_chain (err : error) : option AppError :=
  match err with
  | ErrApp e => Some e
  | ErrOther _ (Some wrapped) => As_chain wrapped
  | ErrOther _ None => None
  end.

(** [As]: the [*AppError] found by [errors.As] and [true], or
    [(nil, false)]; [errors.As] finds nothing in [nil]. *)
Definition As (err : option error) : option AppError * bool :=
  match err with
  | Some e =>
      match As_chain e with
      | Some appErr => (Some appErr, true)
      | None => (None, false)
      end
  | None => (None, false)
  end.

(** A call [c.JSON(status, gin.H{"code": code, "message": message})]:
    what the handler hands to gin, which writes the response from it. *)
Record JSONCall : Type := mkJSONCall {
  json_status : Z;
  json_code : string;
  json_message : string
}.

(** [ErrorHandler], after the other handlers have run ([c.Next()]): the
    call of [c.JSON] that it makes, if any. [errs] are the errors of the
    request ([c.Errors]). There is no call when there is no error;
    otherwise the last error decides the call. *)
Definition ErrorHandler (errs : list error) : option JSONCall :=
  if (Z.of_nat (length errs) =? 0) then None
  else
    let err := last errs in
    match As err with
    | (Some appErr, true) =>
        Some (mkJSONCall (AppStatusCode appErr) (AppCode appErr) (AppMessage appErr))
    | _ =>
        Some (mkJSONCall StatusInternalServerError "INTERNAL_ERROR"
                "An unexpected error occurred")
    end.

(** The error of a chain of calls of [Wrap]: [messages] are the contexts
    added, the outermost first, around the error [cause]. *)
Fixpoint wrap_chain (messages : list string) (cause : error) : error :=
  match messages with
  | [] => cause
  | m :: rest => ErrApp (Wrap (Some (wrap_chain rest cause)) m)
  end.

(** The messages joined by [": "]. *)
Fixpoint join_messages (messages : list string) (final : string) : string :=
  match messages with
  | [] => final
  | m :: rest => m ++ ": " ++ join_messages rest final
  end.

(** ** The configuration ([pkg/config]) *)

(** A [time.Duration] is an [int64] of nanoseconds, a [uint64] an
    integer. *)
Record ServerConfig : Type := mkServerConfig {
  ServerName : string;
  Environment : string;
  ServerPort : Z;
  ServerVersion : string;
  ShutdownTimeout : Z;
  ReadTimeout : Z;
  WriteTimeout : Z
}.

Record DatabaseConfig : Type := mkDatabaseConfig {
  URI : string;
  DatabaseName : string;
  MaxPoolSize : Z;
  MinPoolSize : Z;
  MaxConnIdleTime : Z;
  ConnectTimeout : Z
}.

Record S3Config : Type := mkS3Config {
  Endpoint : string;
  Region : string;
  Bucket : string;
  AccessKeyID : string;
  SecretAccessKey : string;
  UseSSL : bool;
  PresignExpiry : Z;
  ChunkSize : Z;
  MaxFileSize : Z
}.

Record RabbitMQConfig : Type := mkRabbitMQConfig {
  URL : string;
  Exchange : string;
  PrefetchCount : Z;
  ReconnectDelay : Z
}.

Record RedisConfig : Type := mkRedisConfig {
  Host : string;
  Port : Z;
  Password : string;
  DB : Z;
  MaxRetries : Z;
  PoolSize : Z
}.

Record JWTConfig : Type := mkJWTConfig {
  Secret : string;
  Expiry : Z;
  RefreshExpiry : Z;
  Issuer : string
}.

Record RateLimitConfig : Type := mkRateLimitConfig {
  Enabled : bool;
  RequestsPerMin : Z;
  BurstSize : Z
}.

Record ObservabilityConfig : Type := mkObservabilityConfig {
  LogLevel : string;
  MetricsEnabled : bool;
  TracingEnabled : bool;
  JaegerEndpoint : string
}.

Record WorkerConfig : Type := mkWorkerConfig {
  Concurrency : Z
}.

Record EmailConfig : Type := mkEmailConfig {
  SMTPHost : string;
  SMTPPort : Z;
  SMTPUsername : string;
  SMTPPassword : string;
  FromAddress : string;
  SendGridKey : string
}.

Record SecurityConfig : Type := mkSecurityConfig {
  CORSAllowedOrigins : string;
  BcryptCost : Z
}.

Record ServicesConfig : Type := mkServicesConfig {
  AuthServiceURL : string;
  FileServiceURL : string;
  MetadataServiceURL : string;
  ProcessingServiceURL : string;
  VersioningServiceURL : string;
  NotificationServiceURL : string
}.

Record Config : Type := mkConfig {
  Server : ServerConfig;
  Database : DatabaseConfig;
  S3 : S3Config;
  RabbitMQ : RabbitMQConfig;
  Redis : RedisConfig;
  JWT : JWTConfig;
  ConfigRateLimit : RateLimitConfig;
  Observability : ObservabilityConfig;
  Worker : WorkerConfig;
  ConfigEmail : EmailConfig;
  Security : SecurityConfig;
  Services : ServicesConfig
}.

(** [fmt.Errorf] of a message without verbs: an error with that message. *)
Definition Errorf (msg : string) : option error := Some (ErrOther msg None).

(** [Config.Validate]: the first required value that is missing, or
    [None] (Go's [nil]). *)
Definition ConfigValidate : Method Config (option error) :=
  let* c := self in
  if String.eqb (URI (Database c)) "" then
    ret (Errorf "mongodb URI is required")
  else if String.eqb (DatabaseName (Database c)) "" then
    ret (Errorf "mongodb database name is required")
  else if String.eqb (Bucket (S3 c)) "" then
    ret (Errorf "S3 bucket name is required")
  else if String.eqb (AccessKeyID (S3 c)) "" || String.eqb (SecretAccessKey (S3 c)) "" then
    ret (Errorf "S3 credentials (access key and secret key) are required")
  else if String.eqb (Secret (JWT c)) ""
          || String.eqb (Secret (JWT c)) "change-this-secret-in-production" then
    ret (Errorf "JWT secret must be set to a secure random string")
  else if String.eqb (URL (RabbitMQ c)) "" then
    ret (Errorf "RabbitMQ URL is required")
  else ret None.

(** The decimal digits of [n >= 0], most significant first, before
    [acc]; [fuel] bounds their number. *)
Fixpoint digits (fuel : nat) (n : Z) (acc : string) : string :=
  match fuel with
  | O => acc
  | S fuel' =>
      let acc' := String (ascii_of_N (48 + Z.to_N (n mod 10))) acc in
      if n <? 10 then acc' else digits fuel' (n / 10) acc'
  end.

(** The verb [%d] of an [int]: the decimal digits, after a ["-"] for a
    negative number. An [int] has at most 19 digits. *)
Definition format_int (n : Z) : string :=
  if n <? 0 then "-" ++ digits 19 (- n) "" else digits 19 n "".

(** [GetRedisAddress]: the host and the port, as "host:port". *)
Definition GetRedisAddress : Method Config string :=
  let* c := self in
  ret (Host (Redis c) ++ ":" ++ format_int (Port (Redis c))).

Definition IsDevelopment : Method Config bool :=
  let* c := self in
  ret (String.eqb (Environment (Server c)) "development").

Definition IsProduction : Method Config bool :=
  let* c := self in
  ret (String.eqb (Environment (Server c)) "production").

(** The byte [c] does not occur in [s]. *)
Fixpoint byte_free (c : ascii) (s : string) : bool :=
  match s with
  | EmptyString => true
  | String c' s' => negb (Ascii.eqb c' c) && byte_free c s'
  end.

(** A configuration of a development machine. *)
Definition sample_config : Config :=
  {| Server := mkServerConfig "file-service" "development" 8080 "1.0.0" 0 0 0;
     Database := mkDatabaseConfig "mongodb://localhost:27017" "filestorage" 100 10 0 0;
     S3 := mkS3Config "http://localhost:9000" "us-east-1" "file-storage" "minio"
             "minio123" false 0 5242880 104857600;
     RabbitMQ := mkRabbitMQConfig "amqp://localhost:5672" "files" 10 0;
     Redis := mkRedisConfig "localhost" 6379 "" 0 3 10;
     JWT := mkJWTConfig "0f1e2d3c4b5a" 0 0 "file-storage";
     ConfigRateLimit := mkRateLimitConfig true 60 10;
     Observability := mkObservabilityConfig "debug" true false "";
     Worker := mkWorkerConfig 4;
     ConfigEmail := mkEmailConfig "" 587 "" "" "" "";
     Security := mkSecurityConfig "*" 10;
     Services := mkServicesConfig "" "" "" "" "" "" |}.

(** ** Machine integers: wrap-around *)

Lemma wrap64_in_range (z : Z) : int64_range z -> wrap64 z = z.
Proof.
  unfold int64_range, min_int64, max_int64, wrap64. intros Hz.
  rewrite Z.mod_small; lia.
Qed.

Lemma wrap64_range (z : Z) : int64_range (wrap64 z).
Proof.
  unfold int64_range, min_int64, max_int64, wrap64.
  pose proof (Z.mod_pos_bound (z + 2 ^ 63) (2 ^ 64)). lia.
Qed.

Lemma add64_exact (a b : Z) : int64_range (a + b) -> add64 a b = a + b.
Proof. apply wrap64_in_range. Qed.

(** ** Storage accounting of a user *)

Lemma HasStorageSpace_result (u : User) (b : Z) :
  result (HasStorageSpace b) u = (add64 (StorageUsed u) b <=? StorageQuota u).
Proof. reflexivity. Qed.

Lemma HasStorageSpace_after (u : User) (b : Z) : after (HasStorageSpace b) u = u.
Proof. reflexivity. Qed.

Lemma AddStorage_used (u : User) (b : Z) :
  StorageUsed (after (AddStorage b) u) = add64 (StorageUsed u) b.
Proof. reflexivity. Qed.

Lemma RemoveStorage_used (u : User) (b : Z) :
  StorageUsed (after (RemoveStorage b) u) =
  if sub64 (StorageUsed u) b <? 0 then 0 else sub64 (StorageUsed u) b.
Proof.
  unfold after, RemoveStorage, bind, self, assign, ret. simpl.
  destruct (sub64 (StorageUsed u) b <? 0); reflexivity.
Qed.

(** C3 (the code departs from the claim): the sum in [HasStorageSpace]
    is an [int64] sum and wraps around, against the comment of the
    method, "Check if (current usage + new file size) <= quota". A valid
    user with quota 1000 who has used 600 bytes passes the check for
    [2^63 - 1] bytes, far more than the 400 bytes of quota - used: the
    sum wraps to [- 2^63 + 599], which is below the quota. The check
    leaves the user unchanged. *)
Theorem HasStorageSpace_accepts_overflow :
  let u := sample_user 1000 600 in
  let b := max_int64 in
  result Validate u = None /\
  0 <= b /\ int64_range b /\
  b > StorageQuota u - StorageUsed u /\
  ~ (StorageUsed u + b <= StorageQuota u) /\
  add64 (StorageUsed u) b = min_int64 + 599 /\
  result (HasStorageSpace b) u = true /\
  after (HasStorageSpace b) u = u.
Proof.
  cbv zeta. split; [vm_compute; reflexivity |].
  unfold int64_range, min_int64, max_int64. simpl.
  repeat split; try lia; try reflexivity.
Qed.

(** Where the sum does not leave the range of [int64] the check is exact:
    for every user and every non-negative byte count [b] such that
    used + b is at most the largest [int64], the storage-space check
    succeeds if and only if used + b <= quota; equivalently, it is
    rejected if and only if [b] is more than quota - used; and the check
    leaves the user, and so the used bytes, unchanged. *)
Theorem HasStorageSpace_iff (u : User) (b : Z) :
  int64_range (StorageUsed u) ->
  0 <= b ->
  StorageUsed u + b <= max_int64 ->
  (result (HasStorageSpace b) u = true <-> StorageUsed u + b <= StorageQuota u) /\
  (result (HasStorageSpace b) u = false <-> b > StorageQuota u - StorageUsed u) /\
  after (HasStorageSpace b) u = u.
Proof.
  intros Hused Hb Hsum.
  assert (Hadd : add64 (StorageUsed u) b = StorageUsed u + b).
  { apply add64_exact. unfold int64_range in *. lia. }
  rewrite HasStorageSpace_result, Hadd, HasStorageSpace_after.
  split; [apply Z.leb_le |].
  split; [| reflexivity].
  rewrite Z.leb_gt. lia.
Qed.

Lemma HasStorageSpace_iff_witness :
  (result (HasStorageSpace 500) (sample_user 1000 600) = true <->
   StorageUsed (sample_user 1000 600) + 500 <= StorageQuota (sample_user 1000 600)) /\
  (result (HasStorageSpace 500) (sample_user 1000 600) = false <->
   500 > StorageQuota (sample_user 1000 600) - StorageUsed (sample_user 1000 600)) /\
  after (HasStorageSpace 500) (sample_user 1000 600) = sample_user 1000 600.
Proof.
  apply (HasStorageSpace_iff (sample_user 1000 600) 500).
  - unfold int64_range, min_int64, max_int64. simpl. lia.
  - lia.
  - unfold max_int64. simpl. lia.
Defined.

(** C4, as stated, fails for [AddStorage]: a negative byte count takes the
    used bytes of a user who has used nothing below zero. *)
Lemma AddStorage_negative_counterexample :
  let u := sample_user 1000 0 in
  0 <= StorageUsed u /\ int64_range (-1) /\
  StorageUsed (after (AddStorage (-1)) u) = -1.
Proof.
  cbv zeta. unfold int64_range, min_int64, max_int64.
  repeat split; try lia; reflexivity.
Qed.

(** C4 (amended): for every user with non-negative used bytes, the used
    bytes are non-negative after [RemoveStorage] of any byte count, and
    after [AddStorage] of a non-negative byte count whose sum with the
    used bytes is at most the largest [int64]. *)
Theorem storage_used_nonnegative (u : User) (removed added : Z) :
  0 <= StorageUsed u ->
  0 <= added ->
  StorageUsed u + added <= max_int64 ->
  0 <= StorageUsed (after (RemoveStorage removed) u) /\
  0 <= StorageUsed (after (AddStorage added) u).
Proof.
  intros Hused Hadded Hsum. split.
  - rewrite RemoveStorage_used.
    destruct (sub64 (StorageUsed u) removed <? 0) eqn:Hneg; [lia |].
    apply Z.ltb_ge in Hneg. exact Hneg.
  - rewrite AddStorage_used, add64_exact; [lia |].
    unfold int64_range, min_int64. lia.
Qed.

Lemma storage_used_nonnegative_witness :
  0 <= StorageUsed (after (RemoveStorage 700) (sample_user 1000 600)) /\
  0 <= StorageUsed (after (AddStorage 300) (sample_user 1000 600)).
Proof.
  apply (storage_used_nonnegative (sample_user 1000 600) 700 300).
  - simpl. lia.
  - lia.
  - unfold max_int64. simpl. lia.
Defined.

(** C5: a user with quota 1000 who has used nothing passes the check for
    600 bytes, and has used 600 bytes once they are added; the check for
    500 more bytes then fails and leaves the used bytes at 600. *)
Theorem quota_scenario (u : User) :
  StorageQuota u = 1000 ->
  StorageUsed u = 0 ->
  let u1 := after (HasStorageSpace 600 >>> AddStorage 600) u in
  result (HasStorageSpace 600) u = true /\
  StorageUsed u1 = 600 /\
  result (HasStorageSpace 500) u1 = false /\
  StorageUsed (after (HasStorageSpace 500) u1) = 600.
Proof.
  intros Hquota Hused. cbv zeta.
  assert (H1 : StorageUsed (after (HasStorageSpace 600 >>> AddStorage 600) u) = 600).
  { change (add64 (StorageUsed u) 600 = 600). rewrite Hused. reflexivity. }
  assert (Hq : StorageQuota (after (HasStorageSpace 600 >>> AddStorage 600) u) = 1000).
  { exact Hquota. }
  rewrite HasStorageSpace_after, !HasStorageSpace_result, H1, Hq, Hused, Hquota.
  repeat split; reflexivity.
Qed.

Lemma quota_scenario_witness :
  let u1 := after (HasStorageSpace 600 >>> AddStorage 600) (sample_user 1000 0) in
  result (HasStorageSpace 600) (sample_user 1000 0) = true /\
  StorageUsed u1 = 600 /\
  result (HasStorageSpace 500) u1 = false /\
  StorageUsed (after (HasStorageSpace 500) u1) = 600.
Proof.
  apply (quota_scenario (sample_user 1000 0)); reflexivity.
Defined.

(** ** Chunks of an upload *)

Lemma AddChunk_chunks (f : File) (now : Time) (p : Z) (e : string) (sz : Z) :
  Chunks (after (AddChunk now p e sz) f) = (Chunks f ++ [mkUploadChunk p e now sz])%list.
Proof. reflexivity. Qed.

Lemma AddChunk_indices (f : File) (now : Time) (p : Z) (e : string) (sz : Z) :
  indices (after (AddChunk now p e sz) f) = (indices f ++ [p])%list.
Proof. unfold indices. rewrite AddChunk_chunks, map_app. reflexivity. Qed.

Lemma AllChunksUploaded_result (f : File) (n : Z) :
  result (AllChunksUploaded n) f = true <-> Z.of_nat (length (Chunks f)) = n.
Proof. apply Z.eqb_eq. Qed.

(** Indices that are exactly [{1..n}] are a rearrangement of [1, ..., n]. *)
Lemma exactly_1_to_Permutation (n : Z) (l : list Z) :
  exactly_1_to n l -> l ≡ₚ seqZ 1 n.
Proof.
  intros [Hnodup Hmem].
  apply NoDup_Permutation; [exact Hnodup | apply NoDup_seqZ |].
  intros i. rewrite Hmem, elem_of_seqZ. lia.
Qed.

Lemma exactly_1_to_length (n : Z) (l : list Z) :
  0 <= n -> exactly_1_to n l -> Z.of_nat (length l) = n.
Proof.
  intros Hn Hexact. apply exactly_1_to_Permutation in Hexact.
  rewrite Hexact, length_seqZ. lia.
Qed.

(** Pigeonhole: [n] distinct indices within [1..n] leave none out. *)
Lemma distinct_in_range_exact (n : Z) (l : list Z) :
  NoDup l ->
  (forall i, i ∈ l -> 1 <= i <= n) ->
  Z.of_nat (length l) = n ->
  exactly_1_to n l.
Proof.
  intros Hnodup Hrange Hlen. split; [exact Hnodup |].
  assert (Hperm : l ≡ₚ seqZ 1 n).
  { apply submseteq_length_Permutation.
    - apply NoDup_submseteq; [exact Hnodup |].
      intros i Hi. apply elem_of_seqZ. specialize (Hrange i Hi). lia.
    - rewrite length_seqZ. lia. }
  intros i. rewrite Hperm, elem_of_seqZ. lia.
Qed.

(** C1 (the code departs from the claim): [AllChunksUploaded] compares
    the number of chunks recorded with the number expected and does not
    look at their indices, against its comment, "true if all chunks
    uploaded". After chunk 1 has been recorded twice, two chunks are
    recorded and [AllChunksUploaded(2)] returns true, although chunk 2
    was never uploaded: the indices are not exactly [{1, 2}]. *)
Theorem AllChunksUploaded_accepts_duplicate :
  indices sample_upload_1_1 = [1; 1] /\
  result (AllChunksUploaded 2) sample_upload_1_1 = true /\
  ~ exactly_1_to 2 (indices sample_upload_1_1).
Proof.
  split; [reflexivity |]. split; [reflexivity |].
  intros [_ Hmem]. specialize (Hmem 2).
  assert (H2 : 2 ∈ indices sample_upload_1_1) by (apply Hmem; lia).
  change (2 ∈ [1; 1]) in H2.
  apply elem_of_cons in H2 as [H2 | H2]; [discriminate |].
  apply list_elem_of_singleton in H2. discriminate.
Qed.

(** What the count does give: for an expected chunk count [n >= 0] and
    recorded indices that are pairwise distinct and within [1..n],
    [AllChunksUploaded(n)] returns true if and only if the indices are
    exactly the set [{1..n}]. *)
Theorem AllChunksUploaded_iff (f : File) (n : Z) :
  0 <= n ->
  NoDup (indices f) ->
  (forall i, i ∈ indices f -> 1 <= i <= n) ->
  (result (AllChunksUploaded n) f = true <-> Z.of_nat (length (Chunks f)) = n) /\
  (result (AllChunksUploaded n) f = true <-> exactly_1_to n (indices f)).
Proof.
  intros Hn Hnodup Hrange. split; [apply AllChunksUploaded_result |].
  rewrite AllChunksUploaded_result.
  replace (length (Chunks f)) with (length (indices f))
    by (unfold indices; apply length_map).
  split.
  - apply distinct_in_range_exact; assumption.
  - apply exactly_1_to_length; assumption.
Qed.

Lemma AllChunksUploaded_iff_witness :
  (result (AllChunksUploaded 2) sample_upload_1_2 = true <->
   Z.of_nat (length (Chunks sample_upload_1_2)) = 2) /\
  (result (AllChunksUploaded 2) sample_upload_1_2 = true <->
   exactly_1_to 2 (indices sample_upload_1_2)).
Proof.
  apply (AllChunksUploaded_iff sample_upload_1_2 2).
  - lia.
  - change (NoDup [1; 2]). apply NoDup_cons. split; [| apply NoDup_singleton].
    rewrite list_elem_of_singleton. discriminate.
  - change (forall i, i ∈ [1; 2] -> 1 <= i <= 2). intros i Hi.
    apply elem_of_cons in Hi as [-> | Hi]; [lia |].
    apply list_elem_of_singleton in Hi as ->. lia.
Defined.

(** C2, as stated, fails: recording chunk 1 with tag "etag1" a second
    time changes the recorded descriptors, of which there are then two
    for index 1. *)
Lemma AddChunk_duplicate_counterexample :
  indices sample_upload_1 = [1] /\
  map ETag (Chunks sample_upload_1) = ["etag1"] /\
  sample_upload_1_1 = after (AddChunk 2 1 "etag1" 5242880) sample_upload_1 /\
  Chunks sample_upload_1_1 <> Chunks sample_upload_1 /\
  length (Chunks sample_upload_1_1) = 2%nat /\
  ~ NoDup (indices sample_upload_1_1).
Proof.
  repeat (split; [reflexivity |]).
  split; [discriminate |]. split; [reflexivity |].
  change (~ NoDup [1; 1]). intros Hnodup.
  apply NoDup_cons in Hnodup as [Hnotin _].
  apply Hnotin, list_elem_of_singleton. reflexivity.
Qed.

(** C2 (amended): for every file whose recorded chunk indices are unique,
    [AddChunk] appends one descriptor for the chunk to those recorded,
    whatever they are; the indices are unique afterwards if and only if
    the part number was not recorded before. *)
Theorem AddChunk_unique_iff (f : File) (now : Time) (p : Z) (e : string) (sz : Z) :
  NoDup (indices f) ->
  Chunks (after (AddChunk now p e sz) f) = (Chunks f ++ [mkUploadChunk p e now sz])%list /\
  (NoDup (indices (after (AddChunk now p e sz) f)) <-> p ∉ indices f).
Proof.
  intros Hnodup. split; [apply AddChunk_chunks |].
  rewrite AddChunk_indices, NoDup_app. split.
  - intros (_ & Hfresh & _) Hin. apply (Hfresh p Hin).
    apply list_elem_of_singleton. reflexivity.
  - intros Hnotin. split; [exact Hnodup |]. split; [| apply NoDup_singleton].
    intros i Hi Hip. apply list_elem_of_singleton in Hip as ->. contradiction.
Qed.

Lemma AddChunk_unique_iff_witness :
  Chunks (after (AddChunk 2 2 "etag2" 5242880) sample_upload_1) =
    (Chunks sample_upload_1 ++ [mkUploadChunk 2 "etag2" 2 5242880])%list /\
  (NoDup (indices (after (AddChunk 2 2 "etag2" 5242880) sample_upload_1)) <->
   2 ∉ indices sample_upload_1).
Proof.
  apply (AddChunk_unique_iff sample_upload_1 2 2 "etag2" 5242880).
  change (NoDup [1]). apply NoDup_singleton.
Defined.

(** ** Kinds of files and permissions *)

(** The keys of [docTypes]. *)
Lemma docTypes_keys (m : string) :
  index_bool docTypes m = true ->
  m = "application/pdf" \/ m = "application/msword" \/
  m = "application/vnd.openxmlformats-officedocument.wordprocessingml.document" \/
  m = "application/vnd.ms-excel" \/
  m = "application/vnd.openxmlformats-officedocument.spreadsheetml.sheet" \/
  m = "text/plain".
Proof.
  unfold index_bool, docTypes. intros Hdoc.
  repeat (rewrite lookup_insert in Hdoc; case_decide; [subst m; tauto |]).
  rewrite lookup_empty in Hdoc. discriminate.
Qed.

(** No document type is a format that is compressed already. *)
Lemma docTypes_not_compressed (m : string) :
  index_bool docTypes m = true -> index_bool compressedFormats m = false.
Proof.
  intros Hdoc. apply docTypes_keys in Hdoc.
  repeat (destruct Hdoc as [-> | Hdoc]; [vm_compute; reflexivity |]).
  subst m. vm_compute. reflexivity.
Qed.

(** C9: a file that [IsDocument] accepts is one [CanCompress] accepts. *)
Theorem IsDocument_CanCompress (f : File) :
  result IsDocument f = true -> result CanCompress f = true.
Proof.
  intros Hdoc. change (index_bool docTypes (MimeType f) = true) in Hdoc.
  unfold result, CanCompress, bind, self.
  rewrite (docTypes_not_compressed _ Hdoc).
  unfold IsDocument, bind, self, ret. simpl. rewrite Hdoc. reflexivity.
Qed.

Lemma IsDocument_CanCompress_witness :
  result IsDocument sample_document = true /\
  result CanCompress sample_document = true.
Proof.
  assert (Hdoc : result IsDocument sample_document = true) by (vm_compute; reflexivity).
  split; [exact Hdoc | exact (IsDocument_CanCompress sample_document Hdoc)].
Defined.

(** C10: the owner of a file has admin permission, whatever the
    [SharedWith] list says about them. *)
Theorem GetPermission_owner (f : File) (userID : ObjectID) :
  OwnerID f = userID ->
  result (GetPermission userID) f = (PermissionAdmin, true).
Proof.
  intros Howner. unfold result, GetPermission, bind, self. simpl.
  rewrite Howner, String.eqb_refl. reflexivity.
Qed.

Lemma GetPermission_owner_witness :
  GetPermission_loop (SharedWith sample_document) alice = (PermissionRead, true) /\
  result (GetPermission alice) sample_document = (PermissionAdmin, true).
Proof.
  split; [reflexivity |].
  apply (GetPermission_owner sample_document alice). reflexivity.
Defined.

(** ** New files *)

(** C6: a file made by [NewFile] has version 1, is the latest version,
    has no parent version and no soft-delete timestamp; the lineage made
    of it alone has at most one current and live record. *)
Theorem NewFile_first_version (now : Time) (newID userID : ObjectID)
    (fileName : string) (fileSize : Z)
    (mimeType s3Key s3Bucket s3Region checksum : string) :
  let f := NewFile now newID userID fileName fileSize mimeType s3Key s3Bucket
             s3Region checksum in
  Version f = 1 /\ IsLatest f = true /\ ParentFileID f = None /\
  DeletedAt f = None /\ current_and_live f = true /\ at_most_one_current [f].
Proof.
  cbv zeta. repeat (split; [reflexivity |]).
  unfold at_most_one_current. rewrite filter_cons, filter_nil.
  case_decide; simpl; lia.
Qed.

(** ** Paths of folders *)

Lemma len_nonneg (s : string) : 0 <= len s.
Proof. unfold len. lia. Qed.

Lemma len_String (c : ascii) (s : string) : len (String c s) = len s + 1.
Proof. unfold len. simpl String.length. lia. Qed.

Lemma len_append (s t : string) : len (s ++ t) = len s + len t.
Proof.
  induction s as [| c s IH].
  - change ("" ++ t) with t. change (len "") with 0. lia.
  - change (String c s ++ t) with (String c (s ++ t)).
    rewrite !len_String, IH. lia.
Qed.

Lemma len_zero (s : string) : len s = 0 -> s = "".
Proof.
  destruct s as [| c s]; [reflexivity |].
  rewrite len_String. pose proof (len_nonneg s). lia.
Qed.

(** The first [length p] bytes of [p ++ s] are [p]. *)
Lemma substring_append (p s : string) :
  substring 0 (String.length p) (p ++ s) = p.
Proof.
  induction p as [| c p IH].
  - destruct s; reflexivity.
  - change (String c p ++ s) with (String c (p ++ s)).
    simpl. rewrite IH. reflexivity.
Qed.

Lemma slice_to_append (p s : string) : slice_to (p ++ s) (len p) = Some p.
Proof.
  unfold slice_to.
  assert (Hlo : (0 <=? len p) = true) by (apply Z.leb_le, len_nonneg).
  assert (Hhi : (len p <=? len (p ++ s)) = true).
  { apply Z.leb_le. rewrite len_append. pose proof (len_nonneg s). lia. }
  rewrite Hlo, Hhi. simpl. unfold len. rewrite Nat2Z.id, substring_append.
  reflexivity.
Qed.

Lemma HasPrefix_slash (c : ascii) (s : string) :
  HasPrefix (String c s) "/" = Ascii.eqb c "/"%char.
Proof.
  unfold HasPrefix. cbn [String.prefix].
  destruct (ascii_dec "/" c) as [<- | Hne].
  - destruct s; reflexivity.
  - symmetry. apply Ascii.eqb_neq. congruence.
Qed.

(** A scan of a name without ["/"] finds nothing new. *)
Lemma LastIndex_scan_no_slash (s : string) (i found : Z) :
  no_slash s = true -> LastIndex_scan s "/" i found = found.
Proof.
  revert i found. induction s as [| c s IH]; intros i found Hs.
  - reflexivity.
  - simpl in Hs. apply andb_prop in Hs as [Hc Hs].
    cbn [LastIndex_scan]. rewrite HasPrefix_slash.
    apply negb_true_iff in Hc. rewrite Hc. apply IH, Hs.
Qed.

(** The last ["/"] of [p ++ "/" ++ n] is the one after [p] when [n] has
    none. *)
Lemma LastIndex_scan_child (p n : string) (i found : Z) :
  no_slash n = true ->
  LastIndex_scan (p ++ "/" ++ n) "/" i found = i + len p.
Proof.
  intros Hn. revert i found. induction p as [| c p IH]; intros i found.
  - change ("" ++ "/" ++ n) with (String "/" n).
    cbn [LastIndex_scan]. rewrite HasPrefix_slash. simpl Ascii.eqb.
    rewrite LastIndex_scan_no_slash by exact Hn. unfold len. simpl. lia.
  - change (String c p ++ "/" ++ n) with (String c (p ++ "/" ++ n)).
    cbn [LastIndex_scan]. rewrite IH, len_String. lia.
Qed.

Lemma NewFolder_Path (now : Time) (newID userID : ObjectID) (name : string)
    (parentFolderID : option ObjectID) (parentPath : string) :
  Path (NewFolder now newID userID name parentFolderID parentPath) =
  parentPath ++ "/" ++ name.
Proof.
  unfold NewFolder. simpl. destruct (String.eqb_spec parentPath "") as [-> | Hne];
    reflexivity.
Qed.

(** The parent path of a folder made under a parent of path [p], whatever
    the first byte of [p]. *)
Lemma GetParentPath_child (now : Time) (newID userID : ObjectID) (name : string)
    (parentFolderID : option ObjectID) (p : string) :
  p <> "" ->
  no_slash name = true ->
  result GetParentPath (NewFolder now newID userID name parentFolderID p) = Some p.
Proof.
  intros Hp Hname. unfold result, GetParentPath, bind, self.
  rewrite NewFolder_Path. unfold LastIndex.
  rewrite LastIndex_scan_child by exact Hname.
  assert (Hpos : 0 < len p).
  { pose proof (len_nonneg p). destruct (Z.eq_dec (len p) 0) as [Hz | Hnz]; [| lia].
    apply len_zero in Hz. contradiction. }
  replace (0 + len p <=? 0) with false by (symmetry; apply Z.leb_gt; lia).
  simpl. apply slice_to_append.
Qed.

(** C7: the path of the folder made by [NewFolder] is ["/" ++ name] when
    the parent path is empty, and the parent path, ["/"] and the name
    otherwise: in both cases the parent's path extended by the delimiter
    and the folder's own name. *)
Theorem NewFolder_materialized_path (now : Time) (newID userID : ObjectID)
    (name : string) (parentFolderID : option ObjectID)
    (c : ascii) (rest parentPath : string) :
  Path (NewFolder now newID userID name parentFolderID "") = "/" ++ name /\
  Path (NewFolder now newID userID name parentFolderID (String c rest)) =
    String c rest ++ "/" ++ name /\
  Path (NewFolder now newID userID name parentFolderID parentPath) =
    parentPath ++ "/" ++ name.
Proof.
  split; [reflexivity |]. split; [reflexivity |]. apply NewFolder_Path.
Qed.

(** C8: for every non-empty parent path [p] that starts with ["/"] and
    every name without ["/"], [GetParentPath] of the folder made by
    [NewFolder] under [p] returns [p], and does not panic. *)
Theorem GetParentPath_NewFolder (now : Time) (newID userID : ObjectID)
    (name : string) (parentFolderID : option ObjectID) (p : string) :
  p <> "" ->
  HasPrefix p "/" = true ->
  no_slash name = true ->
  result GetParentPath (NewFolder now newID userID name parentFolderID p) = Some p.
Proof.
  intros Hp _ Hname. apply GetParentPath_child; assumption.
Qed.

Lemma GetParentPath_NewFolder_witness :
  result GetParentPath
    (NewFolder 0 (sample_id Byte.x03) alice "Projects" (Some (sample_id Byte.x04))
       "/Documents/Work") = Some "/Documents/Work".
Proof.
  apply (GetParentPath_NewFolder 0 (sample_id Byte.x03) alice "Projects"
           (Some (sample_id Byte.x04)) "/Documents/Work").
  - discriminate.
  - reflexivity.
  - reflexivity.
Defined.

(** ** The examples of the source comments *)

Example LastIndex_projects : LastIndex "/Documents/Work/Projects" "/" = 15.
Proof. reflexivity. Qed.

Example LastIndex_absent : LastIndex "Documents" "/" = -1.
Proof. reflexivity. Qed.

Example GetParentPath_projects :
  result GetParentPath
    (NewFolder 0 (sample_id Byte.x03) alice "Projects" None "/Documents/Work")
  = Some "/Documents/Work".
Proof. reflexivity. Qed.

Example GetParentPath_root :
  result GetParentPath (NewRootFolder 0 (sample_id Byte.x03) alice "Documents")
  = Some "".
Proof. reflexivity. Qed.

Example NewRootFolder_documents :
  Path (NewRootFolder 0 (sample_id Byte.x03) alice "Documents") = "/Documents".
Proof. reflexivity. Qed.

Example Hex_alice : Hex alice = "0a0a0a0a0a0a0a0a0a0a0a0a".
Proof. reflexivity. Qed.

Example AllChunksUploaded_two_of_ten :
  result (AllChunksUploaded 10) sample_upload_1_2 = false.
Proof. reflexivity. Qed.

Example CanCompress_zip : result CanCompress sample_upload = false.
Proof. vm_compute. reflexivity. Qed.

Example RemoveStorage_clamps :
  StorageUsed (after (RemoveStorage 700) (sample_user 1000 600)) = 0.
Proof. reflexivity. Qed.

Example add64_wraps : add64 max_int64 1 = min_int64.
Proof. reflexivity. Qed.

(** ** Conversions *)

Example float64_of_60 : float64_of_int 60 = 0x404E000000000000.
Proof. reflexivity. Qed.

Example float64_of_minus_1 : float64_of_int (-1) = 0xBFF0000000000000.
Proof. reflexivity. Qed.

Example float64_of_max_int64 : float64_of_int max_int64 = 0x43E0000000000000.
Proof. reflexivity. Qed.

Example Trim_slashes : Trim "//Documents/Work/" "/" = "Documents/Work".
Proof. reflexivity. Qed.

(** ** More on the storage accounting of a user *)

Lemma sub64_exact (a b : Z) : int64_range (a - b) -> sub64 a b = a - b.
Proof. apply wrap64_in_range. Qed.

Lemma RemainingStorage_result (u : User) :
  result RemainingStorage u =
  if sub64 (StorageQuota u) (StorageUsed u) <? 0 then 0
  else sub64 (StorageQuota u) (StorageUsed u).
Proof.
  unfold result, RemainingStorage, bind, self. simpl.
  destruct (sub64 (StorageQuota u) (StorageUsed u) <? 0); reflexivity.
Qed.

Lemma set_StorageUsed_same (u : User) : set_StorageUsed (StorageUsed u) u = u.
Proof. destruct u. reflexivity. Qed.

Lemma set_StorageUsed_twice (a b : Z) (u : User) :
  set_StorageUsed a (set_StorageUsed b u) = set_StorageUsed a u.
Proof. reflexivity. Qed.

Lemma RemoveStorage_after (u : User) (b : Z) :
  after (RemoveStorage b) u =
  set_StorageUsed (if sub64 (StorageUsed u) b <? 0 then 0 else sub64 (StorageUsed u) b) u.
Proof.
  unfold after, RemoveStorage, bind, self, assign, ret. simpl.
  destruct (sub64 (StorageUsed u) b <? 0) eqn:Hneg; simpl; [reflexivity |].
  destruct u. reflexivity.
Qed.

Lemma AddStorage_after (u : User) (b : Z) :
  after (AddStorage b) u = set_StorageUsed (add64 (StorageUsed u) b) u.
Proof. reflexivity. Qed.

Lemma after_bind {S A B : Type} (m : Method S A) (k : Method S B) (s : S) :
  after (m >>> k) s = after k (after m s).
Proof. unfold after, bind. destruct (m s). reflexivity. Qed.

(** X1: [RemainingStorage] is never negative, whatever the quota and the
    usage, and it leaves the user as it is. *)
Theorem RemainingStorage_nonnegative (u : User) :
  0 <= result RemainingStorage u /\ after RemainingStorage u = u.
Proof.
  split.
  - rewrite RemainingStorage_result.
    destruct (sub64 (StorageQuota u) (StorageUsed u) <? 0) eqn:Hneg; [lia |].
    apply Z.ltb_ge. exact Hneg.
  - unfold after, RemainingStorage, bind, self. simpl.
    destruct (sub64 (StorageQuota u) (StorageUsed u) <? 0); reflexivity.
Qed.

(** X2: for a user whose usage is within the quota, a file of [b >= 0]
    bytes passes [HasStorageSpace] exactly when [b] is at most
    [RemainingStorage], provided used + b is an [int64]. *)
Theorem HasStorageSpace_iff_RemainingStorage (u : User) (b : Z) :
  0 <= StorageUsed u <= StorageQuota u ->
  StorageQuota u <= max_int64 ->
  0 <= b ->
  StorageUsed u + b <= max_int64 ->
  (result (HasStorageSpace b) u = true <-> b <= result RemainingStorage u) /\
  result RemainingStorage u = StorageQuota u - StorageUsed u.
Proof.
  intros Hused Hquota Hb Hsum.
  assert (Hrem : result RemainingStorage u = StorageQuota u - StorageUsed u).
  { rewrite RemainingStorage_result, sub64_exact
      by (unfold int64_range, min_int64, max_int64 in *; lia).
    destruct (StorageQuota u - StorageUsed u <? 0) eqn:Hneg; [| reflexivity].
    apply Z.ltb_lt in Hneg. lia. }
  split; [| exact Hrem].
  rewrite Hrem, HasStorageSpace_result, add64_exact
    by (unfold int64_range, min_int64, max_int64 in *; lia).
  rewrite Z.leb_le. lia.
Qed.

Lemma HasStorageSpace_iff_RemainingStorage_witness :
  (result (HasStorageSpace 400) (sample_user 1000 600) = true <->
   400 <= result RemainingStorage (sample_user 1000 600)) /\
  result RemainingStorage (sample_user 1000 600) =
    StorageQuota (sample_user 1000 600) - StorageUsed (sample_user 1000 600).
Proof.
  apply (HasStorageSpace_iff_RemainingStorage (sample_user 1000 600) 400).
  - simpl. lia.
  - unfold max_int64. simpl. lia.
  - lia.
  - unfold max_int64. simpl. lia.
Defined.

(** X3: when a file of [b >= 0] bytes has passed [HasStorageSpace],
    adding it keeps the usage within the quota, and takes [b] off the
    remaining storage. *)
Theorem AddStorage_after_check (u : User) (b : Z) :
  0 <= StorageUsed u ->
  StorageQuota u <= max_int64 ->
  0 <= b ->
  StorageUsed u + b <= max_int64 ->
  result (HasStorageSpace b) u = true ->
  let u' := after (HasStorageSpace b >>> AddStorage b) u in
  StorageUsed u' = StorageUsed u + b /\
  StorageUsed u' <= StorageQuota u' /\
  result RemainingStorage u' = result RemainingStorage u - b.
Proof.
  intros Hused Hquota Hb Hsum Hcheck. cbv zeta.
  rewrite after_bind, HasStorageSpace_after.
  assert (Hadd : add64 (StorageUsed u) b = StorageUsed u + b).
  { apply add64_exact. unfold int64_range, min_int64, max_int64 in *. lia. }
  rewrite HasStorageSpace_result, Hadd in Hcheck. apply Z.leb_le in Hcheck.
  rewrite !RemainingStorage_result, AddStorage_after. simpl. rewrite Hadd.
  rewrite !sub64_exact by (unfold int64_range, min_int64, max_int64 in *; lia).
  split; [reflexivity |]. split; [exact Hcheck |].
  destruct (StorageQuota u - (StorageUsed u + b) <? 0) eqn:H1;
    destruct (StorageQuota u - StorageUsed u <? 0) eqn:H2;
    try apply Z.ltb_lt in H1; try apply Z.ltb_lt in H2; lia.
Qed.

Lemma AddStorage_after_check_witness :
  let u' := after (HasStorageSpace 400 >>> AddStorage 400) (sample_user 1000 600) in
  StorageUsed u' = StorageUsed (sample_user 1000 600) + 400 /\
  StorageUsed u' <= StorageQuota u' /\
  result RemainingStorage u' = result RemainingStorage (sample_user 1000 600) - 400.
Proof.
  apply (AddStorage_after_check (sample_user 1000 600) 400).
  - simpl. lia.
  - unfold max_int64. simpl. lia.
  - lia.
  - unfold max_int64. simpl. lia.
  - reflexivity.
Defined.

(** X4: adding [b >= 0] bytes and removing them again gives the user
    back as it was, provided used + b is an [int64]. *)
Theorem AddStorage_RemoveStorage (u : User) (b : Z) :
  0 <= StorageUsed u ->
  0 <= b ->
  StorageUsed u + b <= max_int64 ->
  after (AddStorage b >>> RemoveStorage b) u = u.
Proof.
  intros Hused Hb Hsum.
  rewrite after_bind, RemoveStorage_after, AddStorage_after. simpl.
  rewrite add64_exact by (unfold int64_range, min_int64, max_int64 in *; lia).
  rewrite sub64_exact by (unfold int64_range, min_int64, max_int64 in *; lia).
  replace (StorageUsed u + b - b) with (StorageUsed u) by lia.
  destruct (StorageUsed u <? 0) eqn:Hneg; [apply Z.ltb_lt in Hneg; lia |].
  rewrite set_StorageUsed_twice. apply set_StorageUsed_same.
Qed.

Lemma AddStorage_RemoveStorage_witness :
  after (AddStorage 300 >>> RemoveStorage 300) (sample_user 1000 600) =
  sample_user 1000 600.
Proof.
  apply (AddStorage_RemoveStorage (sample_user 1000 600) 300).
  - simpl. lia.
  - lia.
  - unfold max_int64. simpl. lia.
Defined.

(** X5: in the other order the round trip is lost when more is removed
    than was used: removing [b] bytes and adding them again leaves the
    larger of the former usage and [b]. *)
Theorem RemoveStorage_AddStorage (u : User) (b : Z) :
  0 <= StorageUsed u <= max_int64 ->
  0 <= b <= max_int64 ->
  StorageUsed (after (RemoveStorage b >>> AddStorage b) u) = Z.max (StorageUsed u) b.
Proof.
  intros Hused Hb.
  rewrite after_bind, AddStorage_after, RemoveStorage_after. simpl.
  rewrite sub64_exact by (unfold int64_range, min_int64, max_int64 in *; lia).
  destruct (StorageUsed u - b <? 0) eqn:Hneg.
  - apply Z.ltb_lt in Hneg.
    rewrite add64_exact by (unfold int64_range, min_int64, max_int64 in *; lia). lia.
  - apply Z.ltb_ge in Hneg.
    rewrite add64_exact by (unfold int64_range, min_int64, max_int64 in *; lia). lia.
Qed.

Lemma RemoveStorage_AddStorage_witness :
  StorageUsed (after (RemoveStorage 700 >>> AddStorage 700) (sample_user 1000 600)) =
  Z.max (StorageUsed (sample_user 1000 600)) 700.
Proof.
  apply (RemoveStorage_AddStorage (sample_user 1000 600) 700).
  - unfold max_int64. simpl. lia.
  - unfold max_int64. lia.
Defined.

(** An admin is a premium user. *)
Theorem IsAdmin_IsPremium (u : User) :
  result IsAdmin u = true -> result IsPremium u = true.
Proof.
  unfold result, IsAdmin, IsPremium, bind, self. simpl.
  intros ->. apply orb_true_r.
Qed.

Lemma IsAdmin_IsPremium_witness :
  result IsPremium (NewUser 0 alice "root@example.com" "Root" "admin") = true.
Proof.
  apply (IsAdmin_IsPremium (NewUser 0 alice "root@example.com" "Root" "admin")).
  reflexivity.
Defined.

(** ** Validation of a user *)

Lemma validRoles_keys (r : string) :
  index_bool validRoles r = true <-> r = "user" \/ r = "premium" \/ r = "admin".
Proof.
  unfold index_bool, validRoles. split.
  - intros Hvalid.
    repeat (rewrite lookup_insert in Hvalid; case_decide; [subst r; tauto |]).
    rewrite lookup_empty in Hvalid. discriminate.
  - intros [-> | [-> | ->]]; vm_compute; reflexivity.
Qed.

(** X6: [Validate] returns no error exactly for a user with an email, a
    name, one of the roles "user", "premium" and "admin", and a positive
    quota; and it leaves the user as it is. *)
Theorem Validate_ok_iff (u : User) :
  (result Validate u = None <->
   Email u <> "" /\ Name u <> "" /\
   (Role u = "user" \/ Role u = "premium" \/ Role u = "admin") /\
   0 < StorageQuota u) /\
  after Validate u = u.
Proof.
  unfold result, after, Validate, bind, self.
  destruct (String.eqb_spec (Email u) "") as [Hemail | Hemail];
    [simpl; split; [split; [discriminate | tauto] | reflexivity] |].
  destruct (String.eqb_spec (Name u) "") as [Hname | Hname];
    [simpl; split; [split; [discriminate | tauto] | reflexivity] |].
  destruct (String.eqb_spec (Role u) "") as [Hrole | Hrole].
  { simpl. split; [split; [discriminate |] | reflexivity].
    rewrite Hrole. intros (_ & _ & [H | [H | H]] & _); discriminate. }
  destruct (index_bool validRoles (Role u)) eqn:Hvalid; simpl.
  - apply validRoles_keys in Hvalid.
    destruct (StorageQuota u <=? 0) eqn:Hquota; simpl.
    + apply Z.leb_le in Hquota. split; [split; [discriminate | lia] | reflexivity].
    + apply Z.leb_gt in Hquota. split; [split; [tauto | reflexivity] | reflexivity].
  - split; [split; [discriminate |] | reflexivity].
    intros (_ & _ & Hin & _). apply validRoles_keys in Hin. congruence.
Qed.

(** X7: an error of [Validate] names the first rule that is broken, in
    the order email, name, role, quota, and it has a message. *)
Theorem Validate_first_broken_rule (u : User) (e : ValidationError) :
  result Validate u = Some e ->
  (Field e = "email" <-> Email u = "") /\
  (Field e = "name" <-> Email u <> "" /\ Name u = "") /\
  (Field e = "role" <->
   Email u <> "" /\ Name u <> "" /\
   ~ (Role u = "user" \/ Role u = "premium" \/ Role u = "admin")) /\
  (Field e = "storage_quota" <->
   Email u <> "" /\ Name u <> "" /\
   (Role u = "user" \/ Role u = "premium" \/ Role u = "admin") /\
   StorageQuota u <= 0) /\
  ValidationError_Error e <> "".
Proof.
  unfold result, Validate, bind, self.
  destruct (String.eqb_spec (Email u) "") as [Hemail | Hemail].
  { simpl. intros [= <-]. simpl. intuition (discriminate || congruence). }
  destruct (String.eqb_spec (Name u) "") as [Hname | Hname].
  { simpl. intros [= <-]. simpl. intuition (discriminate || congruence). }
  destruct (String.eqb_spec (Role u) "") as [Hrole | Hrole].
  { assert (Hnot : ~ (Role u = "user" \/ Role u = "premium" \/ Role u = "admin")).
    { rewrite Hrole. intros [H | [H | H]]; discriminate. }
    simpl. intros [= <-]. simpl. intuition (discriminate || congruence). }
  destruct (index_bool validRoles (Role u)) eqn:Hvalid; simpl.
  - apply validRoles_keys in Hvalid.
    destruct (StorageQuota u <=? 0) eqn:Hquota; simpl; [| discriminate].
    apply Z.leb_le in Hquota. intros [= <-]. simpl.
    intuition (discriminate || congruence).
  - assert (Hnot : ~ (Role u = "user" \/ Role u = "premium" \/ Role u = "admin")).
    { intros Hin. apply validRoles_keys in Hin. congruence. }
    intros [= <-]. simpl. intuition (discriminate || congruence).
Qed.

Lemma Validate_first_broken_rule_witness :
  let u := NewUser 0 alice "guest@example.com" "Guest" "guest" in
  let e := mkValidationError "role" "role must be one of: user, premium, admin" in
  (Field e = "email" <-> Email u = "") /\
  (Field e = "name" <-> Email u <> "" /\ Name u = "") /\
  (Field e = "role" <->
   Email u <> "" /\ Name u <> "" /\
   ~ (Role u = "user" \/ Role u = "premium" \/ Role u = "admin")) /\
  (Field e = "storage_quota" <->
   Email u <> "" /\ Name u <> "" /\
   (Role u = "user" \/ Role u = "premium" \/ Role u = "admin") /\
   StorageQuota u <= 0) /\
  ValidationError_Error e <> "".
Proof.
  apply (Validate_first_broken_rule
           (NewUser 0 alice "guest@example.com" "Guest" "guest")
           (mkValidationError "role" "role must be one of: user, premium, admin")).
  vm_compute. reflexivity.
Defined.

Lemma NewUser_StorageQuota (now : Time) (newID : ObjectID) (email name role : string) :
  StorageQuota (NewUser now newID email name role) =
  if String.eqb role "premium" then 100 * 2 ^ 30
  else if String.eqb role "admin" then 2 ^ 40
  else 10 * 2 ^ 30.
Proof.
  unfold NewUser. simpl.
  destruct (String.eqb role "premium"); [reflexivity |].
  destruct (String.eqb role "admin"); reflexivity.
Qed.

(** X8: the user made by [NewUser] is valid exactly when the email and
    the name are not empty and the role is "user", "premium" or "admin":
    another role gets the quota of "user" but does not pass [Validate]. *)
Theorem NewUser_valid_iff (now : Time) (newID : ObjectID) (email name role : string) :
  result Validate (NewUser now newID email name role) = None <->
  email <> "" /\ name <> "" /\ (role = "user" \/ role = "premium" \/ role = "admin").
Proof.
  assert (Hpos : (StorageQuota (NewUser now newID email name role) <=? 0) = false).
  { apply Z.leb_gt. rewrite NewUser_StorageQuota.
    destruct (String.eqb role "premium"); [lia |].
    destruct (String.eqb role "admin"); lia. }
  unfold result, Validate, bind, self.
  cbn [fst snd Email Name Role NewUser].
  destruct (String.eqb_spec email "") as [Hemail | Hemail];
    [simpl; split; [discriminate | tauto] |].
  destruct (String.eqb_spec name "") as [Hname | Hname];
    [simpl; split; [discriminate | tauto] |].
  destruct (String.eqb_spec role "") as [Hrole | Hrole].
  { simpl. split; [discriminate |]. rewrite Hrole.
    intros (_ & _ & [H | [H | H]]); discriminate. }
  destruct (index_bool validRoles role) eqn:Hvalid.
  - apply validRoles_keys in Hvalid. cbn [negb].
    fold (NewUser now newID email name role). rewrite Hpos. simpl. tauto.
  - simpl. split; [discriminate |].
    intros (_ & _ & Hin). apply validRoles_keys in Hin. congruence.
Qed.

(** X9: a new user has used nothing; the quota is 100 GiB for the role
    "premium", 1 TiB for the role "admin" and 10 GiB for any other role,
    so it is more than 10 GiB exactly for the premium users; the
    remaining storage is the quota, and a file of [b >= 0] bytes, [b] an
    [int64], passes [HasStorageSpace] exactly when [b] is at most the
    quota. *)
Theorem NewUser_storage (now : Time) (newID : ObjectID) (email name role : string)
    (b : Z) :
  0 <= b <= max_int64 ->
  let u := NewUser now newID email name role in
  StorageUsed u = 0 /\
  StorageQuota u =
    (if bool_decide (role = "premium") then 100 * 2 ^ 30
     else if bool_decide (role = "admin") then 2 ^ 40
     else 10 * 2 ^ 30) /\
  StorageQuota (NewUser now newID email name "premium") = 100 * 2 ^ 30 /\
  StorageQuota (NewUser now newID email name "admin") = 2 ^ 40 /\
  StorageQuota (NewUser now newID email name "user") = 10 * 2 ^ 30 /\
  (result IsPremium u = true <-> 10 * 2 ^ 30 < StorageQuota u) /\
  result RemainingStorage u = StorageQuota u /\
  (result (HasStorageSpace b) u = true <-> b <= StorageQuota u).
Proof.
  intros Hb. cbv zeta.
  set (u := NewUser now newID email name role).
  assert (Hused : StorageUsed u = 0) by reflexivity.
  assert (Hquota : StorageQuota u =
                   if String.eqb role "premium" then 100 * 2 ^ 30
                   else if String.eqb role "admin" then 2 ^ 40 else 10 * 2 ^ 30)
    by apply NewUser_StorageQuota.
  assert (Hrange : 10 * 2 ^ 30 <= StorageQuota u <= 2 ^ 40).
  { rewrite Hquota. destruct (String.eqb role "premium"); [lia |].
    destruct (String.eqb role "admin"); lia. }
  split; [exact Hused |]. split.
  { rewrite Hquota.
    destruct (String.eqb_spec role "premium") as [Hp | Hp];
      [rewrite bool_decide_eq_true_2 by exact Hp; reflexivity |].
    rewrite bool_decide_eq_false_2 by exact Hp.
    destruct (String.eqb_spec role "admin") as [Ha | Ha];
      [rewrite bool_decide_eq_true_2 by exact Ha; reflexivity |].
    rewrite bool_decide_eq_false_2 by exact Ha. reflexivity. }
  split; [reflexivity |]. split; [reflexivity |]. split; [reflexivity |].
  split.
  { change (result IsPremium u) with (String.eqb role "premium" || String.eqb role "admin").
    rewrite Hquota. destruct (String.eqb role "premium"); simpl; [split; [lia | reflexivity] |].
    destruct (String.eqb role "admin"); simpl; split; try lia; try reflexivity; discriminate. }
  split.
  - rewrite RemainingStorage_result, Hused, sub64_exact
      by (unfold int64_range, min_int64, max_int64; lia).
    replace (StorageQuota u - 0) with (StorageQuota u) by lia.
    destruct (StorageQuota u <? 0) eqn:Hneg; [apply Z.ltb_lt in Hneg; lia | reflexivity].
  - rewrite HasStorageSpace_result, Hused, add64_exact
      by (unfold int64_range, min_int64, max_int64 in *; lia).
    rewrite Z.leb_le. lia.
Qed.

Lemma NewUser_storage_witness :
  let u := NewUser 0 alice "alice@example.com" "Alice" "premium" in
  StorageUsed u = 0 /\
  StorageQuota u =
    (if bool_decide ("premium" = "premium") then 100 * 2 ^ 30
     else if bool_decide ("premium" = "admin") then 2 ^ 40
     else 10 * 2 ^ 30) /\
  StorageQuota (NewUser 0 alice "alice@example.com" "Alice" "premium") = 100 * 2 ^ 30 /\
  StorageQuota (NewUser 0 alice "alice@example.com" "Alice" "admin") = 2 ^ 40 /\
  StorageQuota (NewUser 0 alice "alice@example.com" "Alice" "user") = 10 * 2 ^ 30 /\
  (result IsPremium u = true <-> 10 * 2 ^ 30 < StorageQuota u) /\
  result RemainingStorage u = StorageQuota u /\
  (result (HasStorageSpace 1048576) u = true <-> 1048576 <= StorageQuota u).
Proof.
  apply (NewUser_storage 0 alice "alice@example.com" "Alice" "premium" 1048576).
  unfold max_int64. lia.
Defined.

(** ** Kinds of files *)

(** The guarded comparison of a slice with [p] is the test of the prefix
    [p]. *)
Lemma prefix_guard (p s : string) :
  (len p <=? len s) && String.eqb (substring 0 (String.length p) s) p =
  String.prefix p s.
Proof.
  revert s. induction p as [| a p IH]; intros s.
  - destruct s; reflexivity.
  - destruct s as [| b s].
    + reflexivity.
    + rewrite !len_String. cbn [String.length substring String.prefix String.eqb].
      replace (len p + 1 <=? len s + 1) with (len p <=? len s)
        by (destruct (Z.leb_spec (len p) (len s));
            destruct (Z.leb_spec (len p + 1) (len s + 1)); lia || reflexivity).
      specialize (IH s).
      destruct (ascii_dec a b) as [<- | Hne].
      * rewrite Ascii.eqb_refl. exact IH.
      * assert (Hba : Ascii.eqb b a = false) by (apply Ascii.eqb_neq; congruence).
        rewrite Hba. apply andb_false_r.
Qed.

(** A slice that the test of the length guards does not panic. *)
Lemma slice_to_guarded (s : string) (n : Z) :
  0 <= n -> (n <=? len s) = true -> slice_to s n = Some (substring 0 (Z.to_nat n) s).
Proof.
  intros Hn Hlen. unfold slice_to. rewrite Hlen.
  replace (0 <=? n) with true by (symmetry; apply Z.leb_le; exact Hn). reflexivity.
Qed.

Lemma IsImage_result (f : File) :
  result IsImage f = Some (HasPrefix (MimeType f) "image/").
Proof.
  unfold result, IsImage, bind, self, HasPrefix. simpl.
  rewrite <- (prefix_guard "image/" (MimeType f)). change (len "image/") with 6.
  destruct (6 <=? len (MimeType f)) eqn:Hlen; [| reflexivity].
  rewrite slice_to_guarded by (lia || exact Hlen). reflexivity.
Qed.

Lemma IsVideo_result (f : File) :
  result IsVideo f = Some (HasPrefix (MimeType f) "video/").
Proof.
  unfold result, IsVideo, bind, self, HasPrefix. simpl.
  rewrite <- (prefix_guard "video/" (MimeType f)). change (len "video/") with 6.
  destruct (6 <=? len (MimeType f)) eqn:Hlen; [| reflexivity].
  rewrite slice_to_guarded by (lia || exact Hlen). reflexivity.
Qed.

Lemma IsDocument_result (f : File) :
  result IsDocument f = index_bool docTypes (MimeType f).
Proof. reflexivity. Qed.

Lemma CanCompress_result (f : File) :
  result CanCompress f =
  if index_bool compressedFormats (MimeType f) then false
  else if index_bool docTypes (MimeType f) then true
  else String.eqb (MimeType f) "text/plain" || String.eqb (MimeType f) "application/json".
Proof.
  unfold result, CanCompress, IsDocument, bind, self, ret. simpl.
  destruct (index_bool compressedFormats (MimeType f)); [reflexivity |].
  simpl. destruct (index_bool docTypes (MimeType f)); reflexivity.
Qed.

Example IsImage_empty_type :
  result IsImage (NewFile 0 (sample_id Byte.x06) alice "notes" 0 "" "k" "b" "r" "c")
  = Some false.
Proof. reflexivity. Qed.

Example IsImage_short_type :
  result IsImage (NewFile 0 (sample_id Byte.x06) alice "notes" 0 "image" "k" "b" "r" "c")
  = Some false.
Proof. reflexivity. Qed.

(** X10: [IsImage] and [IsVideo] do not panic, whatever the length of
    the MIME type, the empty one included: the slice of 6 bytes is taken
    only from a MIME type of 6 bytes or more. They return the tests of
    the prefixes "image/" and "video/", which are never both true. *)
Theorem IsImage_IsVideo_prefix (f : File) :
  result IsImage f = Some (HasPrefix (MimeType f) "image/") /\
  result IsVideo f = Some (HasPrefix (MimeType f) "video/") /\
  HasPrefix (MimeType f) "image/" && HasPrefix (MimeType f) "video/" = false.
Proof.
  rewrite IsImage_result, IsVideo_result.
  split; [reflexivity |]. split; [reflexivity |].
  unfold HasPrefix. destruct (MimeType f) as [| c m]; [reflexivity |].
  cbn [String.prefix].
  destruct (ascii_dec "i" c) as [<- | Hi]; [| reflexivity].
  destruct (ascii_dec "v" "i") as [Hvi | _]; [discriminate Hvi |].
  apply andb_false_r.
Qed.

Lemma compressible_types_elem (m : string) :
  m ∈ compressible_types <->
  (m = "application/pdf" \/ m = "application/msword" \/
   m = "application/vnd.openxmlformats-officedocument.wordprocessingml.document" \/
   m = "application/vnd.ms-excel" \/
   m = "application/vnd.openxmlformats-officedocument.spreadsheetml.sheet" \/
   m = "text/plain") \/ m = "application/json".
Proof.
  unfold compressible_types. rewrite !elem_of_cons, elem_of_nil. tauto.
Qed.

Lemma docTypes_index (m : string) :
  index_bool docTypes m = true <->
  m = "application/pdf" \/ m = "application/msword" \/
  m = "application/vnd.openxmlformats-officedocument.wordprocessingml.document" \/
  m = "application/vnd.ms-excel" \/
  m = "application/vnd.openxmlformats-officedocument.spreadsheetml.sheet" \/
  m = "text/plain".
Proof.
  split; [apply docTypes_keys |].
  intros Hm. repeat (destruct Hm as [-> | Hm]; [vm_compute; reflexivity |]).
  subst m. vm_compute. reflexivity.
Qed.

(** X11: [CanCompress] accepts exactly seven MIME types: the six document
    types and "application/json". *)
Theorem CanCompress_iff (f : File) :
  result CanCompress f = true <-> MimeType f ∈ compressible_types.
Proof.
  rewrite CanCompress_result, compressible_types_elem.
  generalize (MimeType f). intros m. split.
  - destruct (index_bool compressedFormats m); [discriminate |].
    destruct (index_bool docTypes m) eqn:Hdoc.
    + intros _. left. apply docTypes_index. exact Hdoc.
    + intros Hor. apply orb_true_iff in Hor as [H | H]; apply String.eqb_eq in H.
      * left. tauto.
      * right. exact H.
  - intros [Hdoc | ->].
    + apply docTypes_index in Hdoc.
      rewrite (docTypes_not_compressed m Hdoc), Hdoc. reflexivity.
    + vm_compute. reflexivity.
Qed.

(** X12: a document is neither an image nor a video. *)
Theorem IsDocument_not_image_video (f : File) :
  result IsDocument f = true ->
  result IsImage f = Some false /\ result IsVideo f = Some false.
Proof.
  rewrite IsDocument_result, IsImage_result, IsVideo_result.
  generalize (MimeType f). intros m Hdoc. apply docTypes_keys in Hdoc.
  repeat (destruct Hdoc as [-> | Hdoc]; [split; reflexivity |]).
  subst m. split; reflexivity.
Qed.

Lemma IsDocument_not_image_video_witness :
  result IsImage sample_document = Some false /\
  result IsVideo sample_document = Some false.
Proof.
  apply (IsDocument_not_image_video sample_document). vm_compute. reflexivity.
Defined.

(** X13: no image and no video is accepted by [CanCompress], whether its
    format is one of those compressed already or not. *)
Theorem image_video_not_compressed (f : File) :
  result IsImage f = Some true \/ result IsVideo f = Some true ->
  result CanCompress f = false.
Proof.
  rewrite IsImage_result, IsVideo_result, CanCompress_result.
  generalize (MimeType f). intros m Hkind.
  assert (Hkind' : HasPrefix m "image/" = true \/ HasPrefix m "video/" = true)
    by (destruct Hkind as [H | H]; injection H as H; tauto).
  clear Hkind. rename Hkind' into Hkind.
  destruct (index_bool compressedFormats m); [reflexivity |].
  destruct (index_bool docTypes m) eqn:Hdoc.
  - apply docTypes_keys in Hdoc.
    repeat (destruct Hdoc as [-> | Hdoc];
            [destruct Hkind as [H | H]; discriminate H |]).
    subst m. destruct Hkind as [H | H]; discriminate H.
  - destruct (String.eqb_spec m "text/plain") as [-> | _];
      [destruct Hkind as [H | H]; discriminate H |].
    destruct (String.eqb_spec m "application/json") as [-> | _];
      [destruct Hkind as [H | H]; discriminate H |].
    reflexivity.
Qed.

Lemma image_video_not_compressed_witness :
  result CanCompress sample_image = false.
Proof.
  apply (image_video_not_compressed sample_image). left. reflexivity.
Defined.

(** ** Identifiers and their hexadecimal form *)

Lemma unhex_hex_byte (b : Byte.byte) :
  unhex_byte (hex_digit (Byte.to_N b / 16)) (hex_digit (Byte.to_N b mod 16)) = Some b.
Proof. destruct b; reflexivity. Qed.

(** Two identifiers with the same hexadecimal form are the same. *)
Lemma Hex_inj (a b : ObjectID) : Hex a = Hex b -> a = b.
Proof.
  revert b. induction a as [| x a IH]; intros [| y b] Heq;
    try reflexivity; try discriminate Heq.
  cbn [Hex] in Heq. injection Heq as Hhi Hlo Hrest.
  pose proof (unhex_hex_byte x) as Hx. pose proof (unhex_hex_byte y) as Hy.
  rewrite Hhi, Hlo, Hy in Hx. injection Hx as ->.
  f_equal. apply IH, Hrest.
Qed.

Lemma Hex_eqb (a b : ObjectID) : String.eqb (Hex a) (Hex b) = true <-> a = b.
Proof.
  rewrite String.eqb_eq. split; [apply Hex_inj | intros ->; reflexivity].
Qed.

Lemma Hex_eqb_false (a b : ObjectID) : String.eqb (Hex a) (Hex b) = false <-> a <> b.
Proof.
  rewrite <- Hex_eqb. destruct (String.eqb (Hex a) (Hex b)); split; congruence.
Qed.

(** The length of the hexadecimal form is twice that of the identifier. *)
Lemma Hex_len (a : ObjectID) : len (Hex a) = 2 * Z.of_nat (length a).
Proof.
  induction a as [| x a IH]; [reflexivity |].
  cbn [Hex length]. rewrite !len_String, IH. lia.
Qed.

(** ** Sharing and permissions *)

Lemma IsSharedWith_loop_iff (shared : list SharedUser) (userID : ObjectID) :
  IsSharedWith_loop shared userID = true <->
  exists sh, sh ∈ shared /\ SharedUserID sh = userID.
Proof.
  induction shared as [| x shared IH]; simpl.
  - split; [discriminate |]. intros (sh & Hin & _). apply elem_of_nil in Hin. contradiction.
  - destruct (String.eqb (Hex (SharedUserID x)) (Hex userID)) eqn:Heq.
    + apply Hex_eqb in Heq. split; [| reflexivity].
      intros _. exists x. split; [apply list_elem_of_here | exact Heq].
    + apply Hex_eqb_false in Heq. rewrite IH. split.
      * intros (sh & Hin & Hid). exists sh. split; [apply list_elem_of_further, Hin | exact Hid].
      * intros (sh & Hin & Hid). apply elem_of_cons in Hin as [-> | Hin]; [contradiction |].
        exists sh. split; assumption.
Qed.

Lemma GetPermission_loop_ok (shared : list SharedUser) (userID : ObjectID) :
  snd (GetPermission_loop shared userID) = IsSharedWith_loop shared userID.
Proof.
  induction shared as [| x shared IH]; simpl; [reflexivity |].
  destruct (String.eqb (Hex (SharedUserID x)) (Hex userID)); [reflexivity | exact IH].
Qed.

Lemma GetPermission_loop_none (shared : list SharedUser) (userID : ObjectID) :
  IsSharedWith_loop shared userID = false ->
  GetPermission_loop shared userID = ("", false).
Proof.
  induction shared as [| x shared IH]; simpl; [reflexivity |].
  destruct (String.eqb (Hex (SharedUserID x)) (Hex userID)); [discriminate | exact IH].
Qed.

Lemma GetPermission_loop_first (before rest : list SharedUser) (sh : SharedUser)
    (userID : ObjectID) :
  (forall x, x ∈ before -> SharedUserID x <> userID) ->
  SharedUserID sh = userID ->
  GetPermission_loop (before ++ sh :: rest) userID = (Permission sh, true).
Proof.
  intros Hbefore Hsh. induction before as [| x before IH]; simpl.
  - rewrite Hsh, String.eqb_refl. reflexivity.
  - assert (Hx : String.eqb (Hex (SharedUserID x)) (Hex userID) = false).
    { apply Hex_eqb_false, Hbefore, list_elem_of_here. }
    rewrite Hx. apply IH. intros y Hy. apply Hbefore, list_elem_of_further, Hy.
Qed.

Lemma GetPermission_result (f : File) (userID : ObjectID) :
  result (GetPermission userID) f =
  if String.eqb (Hex (OwnerID f)) (Hex userID) then (PermissionAdmin, true)
  else GetPermission_loop (SharedWith f) userID.
Proof.
  unfold result, GetPermission, bind, self. simpl.
  destruct (String.eqb (Hex (OwnerID f)) (Hex userID)); reflexivity.
Qed.

(** X14: a file is shared with a user, for [IsSharedWith], exactly when
    an entry of [SharedWith] carries the identifier of the user: the
    comparison of the hexadecimal forms is the comparison of the
    identifiers. *)
Theorem IsSharedWith_iff (f : File) (userID : ObjectID) :
  result (IsSharedWith userID) f = true <->
  exists sh, sh ∈ SharedWith f /\ SharedUserID sh = userID.
Proof. apply IsSharedWith_loop_iff. Qed.

(** X15: [GetPermission] grants access exactly to the owner and to the
    users the file is shared with; it returns [("", false)] exactly for
    the others. *)
Theorem GetPermission_access_iff (f : File) (userID : ObjectID) :
  (snd (result (GetPermission userID) f) = true <->
   OwnerID f = userID \/ result (IsSharedWith userID) f = true) /\
  (result (GetPermission userID) f = ("", false) <->
   OwnerID f <> userID /\ result (IsSharedWith userID) f = false).
Proof.
  rewrite GetPermission_result.
  change (result (IsSharedWith userID) f) with (IsSharedWith_loop (SharedWith f) userID).
  destruct (String.eqb (Hex (OwnerID f)) (Hex userID)) eqn:Howner.
  - apply Hex_eqb in Howner. simpl. split.
    + split; [intros _; left; exact Howner | reflexivity].
    + split; [discriminate | intros [Hne _]; contradiction].
  - apply Hex_eqb_false in Howner. rewrite GetPermission_loop_ok. split.
    + split; [intros H; right; exact H | intros [H | H]; [contradiction | exact H]].
    + split.
      * intros Hnone. split; [exact Howner |].
        rewrite <- GetPermission_loop_ok, Hnone. reflexivity.
      * intros [_ Hnot]. apply GetPermission_loop_none, Hnot.
Qed.

(** X16: a user who is not the owner has the permission of the first
    entry of [SharedWith] for them; later entries for the same user do
    not count. *)
Theorem GetPermission_first_entry (f : File) (userID : ObjectID)
    (before rest : list SharedUser) (sh : SharedUser) :
  OwnerID f <> userID ->
  SharedWith f = (before ++ sh :: rest)%list ->
  (forall x, x ∈ before -> SharedUserID x <> userID) ->
  SharedUserID sh = userID ->
  result (GetPermission userID) f = (Permission sh, true).
Proof.
  intros Howner Hshared Hbefore Hsh.
  rewrite GetPermission_result. apply Hex_eqb_false in Howner.
  rewrite Howner, Hshared. apply GetPermission_loop_first; assumption.
Qed.

Lemma GetPermission_first_entry_witness :
  result (GetPermission bob) sample_image = (PermissionRead, true).
Proof.
  apply (GetPermission_first_entry sample_image bob []
           [mkSharedUser bob PermissionWrite 2 alice]
           (mkSharedUser bob PermissionRead 1 alice)).
  - discriminate.
  - reflexivity.
  - intros x Hx. apply elem_of_nil in Hx. contradiction.
  - reflexivity.
Defined.

(** X17: on a file just made by [NewFile], the owner has admin
    permission and nobody else has any: the file is shared with no one. *)
Theorem NewFile_permissions (now : Time) (newID userID : ObjectID)
    (fileName : string) (fileSize : Z)
    (mimeType s3Key s3Bucket s3Region checksum : string) (other : ObjectID) :
  other <> userID ->
  let f := NewFile now newID userID fileName fileSize mimeType s3Key s3Bucket
             s3Region checksum in
  result (GetPermission userID) f = (PermissionAdmin, true) /\
  result (GetPermission other) f = ("", false) /\
  result (IsSharedWith other) f = false.
Proof.
  intros Hother. cbv zeta. rewrite !GetPermission_result.
  cbn [OwnerID SharedWith NewFile GetPermission_loop].
  assert (Hne : String.eqb (Hex userID) (Hex other) = false)
    by (apply Hex_eqb_false; congruence).
  rewrite String.eqb_refl, Hne. repeat split; reflexivity.
Qed.

Lemma NewFile_permissions_witness :
  let f := NewFile 0 (sample_id Byte.x02) alice "report.pdf" 1048576
             "application/pdf" "users/a/files/report.pdf" "file-storage"
             "us-east-1" "e3b0c442" in
  result (GetPermission alice) f = (PermissionAdmin, true) /\
  result (GetPermission bob) f = ("", false) /\
  result (IsSharedWith bob) f = false.
Proof.
  apply (NewFile_permissions 0 (sample_id Byte.x02) alice "report.pdf" 1048576
           "application/pdf" "users/a/files/report.pdf" "file-storage"
           "us-east-1" "e3b0c442" bob).
  discriminate.
Defined.

(** ** Recording the chunks of an upload *)

Lemma AddChunk_after (f : File) (now : Time) (p : Z) (e : string) (sz : Z) :
  after (AddChunk now p e sz) f =
  set_Chunks (Chunks f ++ [mkUploadChunk p e now sz]) f.
Proof. reflexivity. Qed.

Lemma AddChunks_after (calls : list ChunkCall) (f : File) :
  after (AddChunks calls) f = set_Chunks (Chunks f ++ map chunk_of_call calls) f.
Proof.
  revert f. induction calls as [| c calls IH]; intros f.
  - cbn [AddChunks map]. rewrite app_nil_r. destruct f. reflexivity.
  - cbn [AddChunks map]. rewrite after_bind, IH, AddChunk_after.
    cbn [Chunks set_Chunks]. rewrite <- app_assoc. reflexivity.
Qed.

(** X18: recording chunks one after the other appends their descriptors,
    in the order of the calls, to those recorded, and changes no other
    field, the upload status included; [AllChunksUploaded(n)] is then
    true exactly when [n] is the number recorded before plus the number
    of calls. *)
Theorem AddChunks_count (calls : list ChunkCall) (f : File) (n : Z) :
  let f' := after (AddChunks calls) f in
  f' = set_Chunks (Chunks f ++ map chunk_of_call calls) f /\
  FileUploadStatus f' = FileUploadStatus f /\
  (result (AllChunksUploaded n) f' = true <->
   n = Z.of_nat (length (Chunks f)) + Z.of_nat (length calls)).
Proof.
  cbv zeta. rewrite AddChunks_after. split; [reflexivity |]. split; [reflexivity |].
  rewrite AllChunksUploaded_result. cbn [Chunks set_Chunks].
  rewrite length_app, length_map. lia.
Qed.

(** X19: a file made by [NewFileForChunkedUpload] has no chunk and the
    status "initiated"; after the calls of [AddChunk] for [calls],
    [AllChunksUploaded(n)] is true exactly when [n] is the number of
    calls, and the status is still "initiated". *)
Theorem NewFileForChunkedUpload_count (now : Time) (newID userID : ObjectID)
    (fileName : string) (fileSize : Z)
    (mimeType s3Key s3Bucket s3Region uploadID : string)
    (calls : list ChunkCall) (n : Z) :
  let f := NewFileForChunkedUpload now newID userID fileName fileSize mimeType
             s3Key s3Bucket s3Region uploadID in
  Chunks f = [] /\ FileUploadStatus f = UploadInitiated /\ UploadID f = uploadID /\
  Checksum f = "" /\
  Chunks (after (AddChunks calls) f) = map chunk_of_call calls /\
  FileUploadStatus (after (AddChunks calls) f) = UploadInitiated /\
  (result (AllChunksUploaded n) (after (AddChunks calls) f) = true <->
   n = Z.of_nat (length calls)).
Proof.
  cbv zeta. repeat (split; [reflexivity |]).
  rewrite AddChunks_after. split; [reflexivity |]. split; [reflexivity |].
  rewrite AllChunksUploaded_result. cbn. rewrite length_map. lia.
Qed.

(** ** Depth of a folder *)

Lemma in_cutset_slash (c : ascii) : in_cutset c "/" = Ascii.eqb c "/"%char.
Proof. unfold in_cutset. simpl. apply orb_false_r. Qed.

Lemma append_String (c : ascii) (s t : string) : String c s ++ t = String c (s ++ t).
Proof. reflexivity. Qed.

Lemma append_empty_r (s : string) : s ++ "" = s.
Proof.
  induction s as [| c s IH]; [reflexivity |]. rewrite append_String, IH. reflexivity.
Qed.

Lemma append_assoc (s t r : string) : (s ++ t) ++ r = s ++ t ++ r.
Proof.
  induction s as [| c s IH]; [reflexivity |]. rewrite !append_String, IH. reflexivity.
Qed.

Lemma CountByte_nonneg (s : string) (c : ascii) : 0 <= CountByte s c.
Proof.
  induction s as [| c' s IH]; simpl; [lia |]. destruct (Ascii.eqb c' c); lia.
Qed.

Lemma CountByte_append (s t : string) (c : ascii) :
  CountByte (s ++ t) c = CountByte s c + CountByte t c.
Proof.
  induction s as [| c' s IH]; [reflexivity |].
  rewrite append_String. cbn [CountByte]. rewrite IH. lia.
Qed.

Lemma CountByte_no_slash (s : string) : no_slash s = true -> CountByte s "/" = 0.
Proof.
  induction s as [| c s IH]; [reflexivity |]. cbn [no_slash CountByte].
  intros Hs. apply andb_prop in Hs as [Hc Hs]. apply negb_true_iff in Hc.
  rewrite Hc, IH by exact Hs. reflexivity.
Qed.

(** Trimming on the right keeps a string that does not end in ["/"]. *)
Lemma TrimRight_keeps (s : string) : last_is_slash s = false -> TrimRight s "/" = s.
Proof.
  induction s as [| c s IH]; [reflexivity |]. intros Hlast.
  cbn [TrimRight]. destruct s as [| c' s].
  - cbn [TrimRight]. rewrite in_cutset_slash. simpl in Hlast. rewrite Hlast. reflexivity.
  - rewrite IH by exact Hlast. reflexivity.
Qed.

Lemma all_slash_TrimRight (s : string) : all_slash (TrimRight s "/") = all_slash s.
Proof.
  induction s as [| c s IH]; [reflexivity |]. cbn [TrimRight all_slash].
  destruct (TrimRight s "/") as [| c' t] eqn:Ht.
  - rewrite <- IH. rewrite in_cutset_slash.
    destruct (Ascii.eqb c "/") eqn:Hc; cbn [all_slash]; rewrite ?Hc; reflexivity.
  - cbn [all_slash] in *. rewrite IH. reflexivity.
Qed.

Lemma TrimLeft_empty_iff (s : string) : TrimLeft s "/" = "" <-> all_slash s = true.
Proof.
  induction s as [| c s IH]; [tauto |]. cbn [TrimLeft all_slash].
  rewrite in_cutset_slash. destruct (Ascii.eqb c "/"); simpl; [exact IH |].
  split; discriminate.
Qed.

Lemma Trim_empty_iff (s : string) : Trim s "/" = "" <-> all_slash s = true.
Proof. unfold Trim. rewrite TrimLeft_empty_iff, all_slash_TrimRight. tauto. Qed.

Lemma GetDepth_result (f : Folder) :
  result GetDepth f =
  if String.eqb (Trim (Path f) "/") "" then 0
  else CountByte (Trim (Path f) "/") "/" + 1.
Proof.
  unfold result, GetDepth, bind, self. simpl.
  destruct (String.eqb (Trim (Path f) "/") ""); reflexivity.
Qed.

(** X20: the depth of a folder is never negative, and it is 0 exactly
    when the path is empty or made of ["/"] only. *)
Theorem GetDepth_zero_iff (f : Folder) :
  0 <= result GetDepth f /\
  (result GetDepth f = 0 <-> all_slash (Path f) = true).
Proof.
  rewrite GetDepth_result, <- Trim_empty_iff.
  pose proof (CountByte_nonneg (Trim (Path f) "/") "/") as Hcount.
  destruct (String.eqb_spec (Trim (Path f) "/") "") as [Hempty | Hne].
  - split; [lia | tauto].
  - split; [lia |]. split; [lia | contradiction].
Qed.

Lemma last_is_slash_append (s t : string) :
  t <> "" -> last_is_slash (s ++ t) = last_is_slash t.
Proof.
  intros Ht. induction s as [| c s IH]; [reflexivity |].
  rewrite append_String. cbn [last_is_slash].
  destruct (s ++ t) as [| c' r] eqn:Hst; [| exact IH].
  destruct s; [| discriminate Hst]. simpl in Hst. contradiction.
Qed.

Lemma last_is_slash_valid_name (n : string) :
  valid_name n = true -> n <> "" /\ no_slash n = true /\ last_is_slash n = false.
Proof.
  unfold valid_name. intros Hn. apply andb_prop in Hn as [Hne Hslash].
  apply negb_true_iff, String.eqb_neq in Hne.
  split; [exact Hne |]. split; [exact Hslash |]. clear Hne.
  induction n as [| c n IH]; [reflexivity |].
  cbn [no_slash] in Hslash. apply andb_prop in Hslash as [Hc Hslash].
  apply negb_true_iff in Hc. cbn [last_is_slash].
  destruct n; [exact Hc | exact (IH Hslash)].
Qed.

Lemma path_of_app (a b : list string) : path_of (a ++ b)%list = path_of a ++ path_of b.
Proof.
  induction a as [| n a IH]; [reflexivity |].
  change (path_of ((n :: a) ++ b)%list) with ("/" ++ n ++ path_of (a ++ b)%list).
  rewrite IH. cbn [path_of]. rewrite !append_assoc. reflexivity.
Qed.

Lemma path_of_last (names : list string) :
  names <> [] -> Forall (fun n => valid_name n = true) names ->
  last_is_slash (path_of names) = false.
Proof.
  intros Hne Hvalid. induction Hvalid as [| n rest Hn Hrest IH]; [contradiction |].
  cbn [path_of]. destruct rest as [| n' rest'].
  - cbn [path_of]. rewrite append_empty_r.
    apply last_is_slash_valid_name in Hn as (Hnn & _ & Hlast).
    rewrite last_is_slash_append by exact Hnn. exact Hlast.
  - rewrite <- append_assoc, last_is_slash_append; [apply IH; discriminate |].
    cbn [path_of]. discriminate.
Qed.

Lemma CountByte_path_of (names : list string) :
  Forall (fun n => valid_name n = true) names ->
  CountByte (path_of names) "/" = Z.of_nat (length names).
Proof.
  intros Hvalid. induction Hvalid as [| n rest Hn Hrest IH]; [reflexivity |].
  apply last_is_slash_valid_name in Hn as (_ & Hslash & _).
  cbn [path_of length]. rewrite append_String. cbn [CountByte].
  change ("" ++ n ++ path_of rest) with (n ++ path_of rest).
  rewrite CountByte_append, CountByte_no_slash, IH by exact Hslash.
  simpl Ascii.eqb. lia.
Qed.

(** The depth read off a path made of valid names. *)
Lemma depth_of_path_of (f : Folder) (names : list string) :
  Path f = path_of names ->
  Forall (fun n => valid_name n = true) names ->
  result GetDepth f = Z.of_nat (length names).
Proof.
  intros Hpath Hvalid. rewrite GetDepth_result, Hpath.
  destruct names as [| n rest]; [reflexivity |].
  unfold Trim. rewrite TrimRight_keeps by (apply path_of_last; [discriminate | exact Hvalid]).
  pose proof (CountByte_path_of (n :: rest) Hvalid) as Hcount.
  inversion Hvalid as [| ? ? Hn Hrest]; subst.
  apply last_is_slash_valid_name in Hn as (Hne & Hslash & _).
  cbn [path_of] in *. rewrite append_String in *.
  change ("" ++ n ++ path_of rest) with (n ++ path_of rest) in *.
  cbn [TrimLeft]. rewrite in_cutset_slash. simpl Ascii.eqb. cbn iota.
  destruct n as [| c n]; [contradiction |].
  rewrite append_String in *. cbn [no_slash] in Hslash.
  apply andb_prop in Hslash as [Hc _]. apply negb_true_iff in Hc.
  cbn [TrimLeft]. rewrite in_cutset_slash, Hc.
  cbn [String.eqb CountByte] in *. simpl Ascii.eqb in Hcount. lia.
Qed.

Lemma nested_path (names : list string) (f : Folder) :
  nested names f ->
  Path f = path_of names /\ names <> [] /\ Forall (fun n => valid_name n = true) names.
Proof.
  induction 1 as [now newID userID n Hn | now newID userID n names parent Hn Hnested IH].
  - split; [| split; [discriminate | repeat constructor; exact Hn]].
    unfold NewRootFolder. rewrite NewFolder_Path. cbn [path_of].
    rewrite append_empty_r. reflexivity.
  - destruct IH as (Hpath & Hne & Hvalid). split; [| split].
    + rewrite NewFolder_Path, Hpath, path_of_app. cbn [path_of].
      rewrite append_empty_r. reflexivity.
    + destruct names; discriminate.
    + apply Forall_app. split; [exact Hvalid | repeat constructor; exact Hn].
Qed.

(** X21: a folder made by nesting folders of valid names has the path of
    those names, each after a ["/"], and its depth is their number. *)
Theorem nested_depth (names : list string) (f : Folder) :
  nested names f ->
  Path f = path_of names /\ result GetDepth f = Z.of_nat (length names).
Proof.
  intros Hnested. apply nested_path in Hnested as (Hpath & _ & Hvalid).
  split; [exact Hpath |]. apply depth_of_path_of; assumption.
Qed.

Lemma nested_depth_witness :
  Path sample_work = path_of ["Documents"; "Work"] /\
  result GetDepth sample_work = Z.of_nat (length ["Documents"; "Work"]).
Proof.
  apply (nested_depth ["Documents"; "Work"] sample_work).
  apply (nested_child 1 (sample_id Byte.x11) alice "Work" ["Documents"] sample_documents).
  - reflexivity.
  - apply nested_root. reflexivity.
Defined.

(** ** Parent path of a folder *)

(** A string has no ["/"], or it splits at its last ["/"]. *)
Lemma split_at_last_slash (s : string) :
  no_slash s = true \/ exists p n, s = p ++ "/" ++ n /\ no_slash n = true.
Proof.
  induction s as [| c s IH]; [left; reflexivity |].
  destruct IH as [Hnone | (p & n & -> & Hn)].
  - cbn [no_slash]. rewrite Hnone.
    destruct (Ascii.eqb c "/") eqn:Hc; [| left; reflexivity].
    apply Ascii.eqb_eq in Hc as ->. right. exists "", s. split; [reflexivity | exact Hnone].
  - right. exists (String c p), n. split; [reflexivity | exact Hn].
Qed.

Lemma GetParentPath_no_slash (f : Folder) :
  no_slash (Path f) = true -> result GetParentPath f = Some "".
Proof.
  intros Hnone. unfold result, GetParentPath, bind, self, LastIndex. simpl.
  rewrite LastIndex_scan_no_slash by exact Hnone. reflexivity.
Qed.

Lemma GetParentPath_split (f : Folder) (p n : string) :
  Path f = p ++ "/" ++ n -> no_slash n = true -> result GetParentPath f = Some p.
Proof.
  intros Hpath Hn. unfold result, GetParentPath, bind, self, LastIndex. simpl.
  rewrite Hpath, LastIndex_scan_child by exact Hn.
  destruct p as [| c p]; [reflexivity |].
  assert (Hpos : (0 + len (String c p) <=? 0) = false).
  { apply Z.leb_gt. rewrite len_String. pose proof (len_nonneg p). lia. }
  rewrite Hpos. simpl. apply slice_to_append.
Qed.

(** X22: [GetParentPath] never panics. It returns [""] for a path without
    ["/"], and otherwise the part of the path before its last ["/"]. *)
Theorem GetParentPath_before_last_slash (f : Folder) :
  exists p, result GetParentPath f = Some p /\
    ((no_slash (Path f) = true /\ p = "") \/
     (exists n, Path f = p ++ "/" ++ n /\ no_slash n = true)).
Proof.
  destruct (split_at_last_slash (Path f)) as [Hnone | (p & n & Hpath & Hn)].
  - exists "". split; [apply GetParentPath_no_slash, Hnone | left; tauto].
  - exists p. split; [apply (GetParentPath_split f p n); assumption |].
    right. exists n. tauto.
Qed.

(** X23: for a folder made by nesting folders of valid names,
    [GetParentPath] is the path of the names but the last, and the folder
    is at the root level exactly when there is one name. *)
Theorem nested_parent (names : list string) (f : Folder) :
  nested names f ->
  result GetParentPath f = Some (path_of (removelast names)) /\
  (result IsRootLevel f = true <-> length names = 1%nat).
Proof.
  intros Hnested.
  destruct Hnested as [now newID userID n Hn | now newID userID n names parent Hn Hparent].
  - apply last_is_slash_valid_name in Hn as (_ & Hslash & _). split.
    + apply (GetParentPath_split _ "" n); [reflexivity | exact Hslash].
    + split; reflexivity.
  - apply last_is_slash_valid_name in Hn as (_ & Hslash & _).
    apply nested_path in Hparent as (Hpath & Hne & _).
    rewrite removelast_last, <- Hpath. split.
    + apply (GetParentPath_split _ (Path parent) n); [apply NewFolder_Path | exact Hslash].
    + rewrite length_app. simpl. destruct names; [contradiction |]. simpl.
      split; [discriminate | lia].
Qed.

Lemma nested_parent_witness :
  result GetParentPath sample_work = Some (path_of (removelast ["Documents"; "Work"])) /\
  (result IsRootLevel sample_work = true <-> length ["Documents"; "Work"] = 1%nat).
Proof.
  apply (nested_parent ["Documents"; "Work"] sample_work).
  apply (nested_child 1 (sample_id Byte.x11) alice "Work" ["Documents"] sample_documents).
  - reflexivity.
  - apply nested_root. reflexivity.
Defined.

(** ** Permissions on a folder *)

Lemma FolderGetPermission_result (f : Folder) (userID : ObjectID) :
  result (FolderGetPermission userID) f =
  if String.eqb (Hex (FolderUserID f)) (Hex userID) then (PermissionAdmin, true)
  else GetPermission_loop (FolderSharedWith f) userID.
Proof.
  unfold result, FolderGetPermission, bind, self. simpl.
  destruct (String.eqb (Hex (FolderUserID f)) (Hex userID)); reflexivity.
Qed.

(** X24: [GetPermission] of a folder grants access exactly to the user
    of the folder and to the users it is shared with; the user of the
    folder has admin permission whatever [SharedWith] says. *)
Theorem FolderGetPermission_access_iff (f : Folder) (userID : ObjectID) :
  (snd (result (FolderGetPermission userID) f) = true <->
   FolderUserID f = userID \/ result (FolderIsSharedWith userID) f = true) /\
  result (FolderGetPermission (FolderUserID f)) f = (PermissionAdmin, true) /\
  (result (FolderIsSharedWith userID) f = true <->
   exists sh, sh ∈ FolderSharedWith f /\ SharedUserID sh = userID).
Proof.
  rewrite !FolderGetPermission_result, String.eqb_refl.
  change (result (FolderIsSharedWith userID) f)
    with (IsSharedWith_loop (FolderSharedWith f) userID).
  split; [| split; [reflexivity | apply IsSharedWith_loop_iff]].
  destruct (String.eqb (Hex (FolderUserID f)) (Hex userID)) eqn:Howner.
  - apply Hex_eqb in Howner. simpl. split; [intros _; left; exact Howner | reflexivity].
  - apply Hex_eqb_false in Howner. rewrite GetPermission_loop_ok.
    split; [intros H; right; exact H | intros [H | H]; [contradiction | exact H]].
Qed.

(** X25: on a folder just made by [NewFolder], the user of the folder
    has admin permission and nobody else has any; the folder is active. *)
Theorem NewFolder_permissions (now : Time) (newID userID : ObjectID) (name : string)
    (parentFolderID : option ObjectID) (parentPath : string) (other : ObjectID) :
  other <> userID ->
  let f := NewFolder now newID userID name parentFolderID parentPath in
  result (FolderGetPermission userID) f = (PermissionAdmin, true) /\
  result (FolderGetPermission other) f = ("", false) /\
  result FolderIsActive f = true.
Proof.
  intros Hother. cbv zeta. rewrite !FolderGetPermission_result.
  cbn [FolderUserID FolderSharedWith NewFolder GetPermission_loop].
  assert (Hne : String.eqb (Hex userID) (Hex other) = false)
    by (apply Hex_eqb_false; congruence).
  rewrite String.eqb_refl, Hne. repeat split; reflexivity.
Qed.

Lemma NewFolder_permissions_witness :
  let f := NewFolder 1 (sample_id Byte.x11) alice "Work"
             (Some (FolderIDField sample_documents)) (Path sample_documents) in
  result (FolderGetPermission alice) f = (PermissionAdmin, true) /\
  result (FolderGetPermission bob) f = ("", false) /\
  result FolderIsActive f = true.
Proof.
  apply (NewFolder_permissions 1 (sample_id Byte.x11) alice "Work"
           (Some (FolderIDField sample_documents)) (Path sample_documents) bob).
  discriminate.
Defined.

(** ** Versions of a file *)

Lemma IsDuplicate_result (fv other : FileVersion) :
  result (IsDuplicate other) fv = true <-> VersionChecksum fv = VersionChecksum other.
Proof. apply String.eqb_eq. Qed.

(** X26: [IsDuplicate] holds exactly for versions of the same checksum,
    so it is reflexive, symmetric and transitive; the version number, the
    storage key and the file play no part. *)
Theorem IsDuplicate_equivalence (a b c : FileVersion) :
  (result (IsDuplicate b) a = true <-> VersionChecksum a = VersionChecksum b) /\
  result (IsDuplicate a) a = true /\
  result (IsDuplicate b) a = result (IsDuplicate a) b /\
  implb (result (IsDuplicate b) a && result (IsDuplicate c) b)
        (result (IsDuplicate c) a) = true.
Proof.
  split; [apply IsDuplicate_result |].
  split; [apply IsDuplicate_result; reflexivity |].
  split; [apply String.eqb_sym |].
  destruct (result (IsDuplicate b) a) eqn:Hab; [| reflexivity].
  destruct (result (IsDuplicate c) b) eqn:Hbc; [| reflexivity].
  apply IsDuplicate_result in Hab, Hbc. simpl.
  apply IsDuplicate_result. congruence.
Qed.

(** A version made by [NewFileVersion] has not been restored, is
    stored under the key given, and is a duplicate of another version
    made by [NewFileVersion] exactly when the checksums given are equal. *)
Theorem NewFileVersion_fresh (now now' : Time) (newID newID' fileID fileID' : ObjectID)
    (number number' : Z) (s3Key s3Bucket s3Region s3Key' s3Bucket' s3Region' : string)
    (fileSize fileSize' : Z) (checksum checksum' desc desc' : string)
    (createdBy createdBy' : ObjectID) :
  let v := NewFileVersion now newID fileID number s3Key s3Bucket s3Region fileSize
             checksum desc createdBy in
  let v' := NewFileVersion now' newID' fileID' number' s3Key' s3Bucket' s3Region'
              fileSize' checksum' desc' createdBy' in
  result WasRestored v = false /\
  result GetStoragePath v = s3Key /\
  (result (IsDuplicate v') v = true <-> checksum = checksum').
Proof.
  cbv zeta. split; [reflexivity |]. split; [reflexivity |]. apply IsDuplicate_result.
Qed.

(** ** Application errors *)

Example Wrap_chain_message :
  error_Error
    (wrap_chain ["failed to get user"; "failed to query database"]
       (ErrOther "connection refused" None))
  = "failed to get user: failed to query database: connection refused".
Proof. reflexivity. Qed.

Lemma error_Error_wrap_chain (messages : list string) (cause : error) :
  error_Error (wrap_chain messages cause) = join_messages messages (error_Error cause).
Proof.
  induction messages as [| m rest IH]; [reflexivity |].
  cbn [wrap_chain join_messages]. rewrite <- IH. reflexivity.
Qed.

(** X27: the message of an error wrapped by calls of [Wrap] is the
    contexts added, the outermost first, and then the message of the
    cause, joined by [": "]; [Unwrap] gives back what [Wrap] was given;
    and an error made by [New] or wrapping [nil] has its message alone. *)
Theorem Wrap_messages (messages : list string) (cause : error) (err : option error)
    (code message : string) (statusCode : Z) :
  error_Error (wrap_chain messages cause) = join_messages messages (error_Error cause) /\
  Unwrap (Wrap err message) = err /\
  Unwrap (WrapWithCode err code message statusCode) = err /\
  AppError_Error (Wrap None message) = message /\
  AppError_Error (New code message statusCode) = message /\
  Unwrap (New code message statusCode) = None.
Proof.
  split; [apply error_Error_wrap_chain |]. repeat split; reflexivity.
Qed.

Lemma ErrorHandler_last (errs : list error) (err : error) :
  ErrorHandler (errs ++ [err]) =
  Some (match As_chain err with
        | Some e => mkJSONCall (AppStatusCode e) (AppCode e) (AppMessage e)
        | None => mkJSONCall 500 "INTERNAL_ERROR" "An unexpected error occurred"
        end).
Proof.
  unfold ErrorHandler. rewrite length_app. cbn [length].
  replace (Z.of_nat (length errs + 1) =? 0) with false
    by (symmetry; apply Z.eqb_neq; lia).
  rewrite last_snoc. unfold As. destruct (As_chain err); reflexivity.
Qed.

(** X28: the error handler makes no call of [c.JSON] when the request has
    no error, and otherwise one call, decided by the last error alone:
    with the status, the code and the message of the first [*AppError]
    on the chain of that error, or with status 500, the code
    "INTERNAL_ERROR" and a fixed message when the chain has none. So an
    error made by [Wrap] gives status 500, "INTERNAL_ERROR" and the
    context given to [Wrap], whatever it wraps, be it [ErrNotFound];
    while an error of another type that wraps [ErrNotFound] gives 404 and
    "NOT_FOUND". *)
Theorem ErrorHandler_response (errs : list error) (err : error)
    (cause wrapped : option error) (message context other : string) :
  ErrorHandler [] = None /\
  ErrorHandler (errs ++ [err]) =
    Some (match As_chain err with
          | Some e => mkJSONCall (AppStatusCode e) (AppCode e) (AppMessage e)
          | None => mkJSONCall 500 "INTERNAL_ERROR" "An unexpected error occurred"
          end) /\
  As (Some (ErrOther context wrapped)) = As wrapped /\
  ErrorHandler (errs ++ [ErrApp (Wrap cause message)]) =
    Some (mkJSONCall 500 "INTERNAL_ERROR" message) /\
  ErrorHandler (errs ++ [ErrOther context (Some (ErrApp ErrNotFound))]) =
    Some (mkJSONCall 404 "NOT_FOUND" "Resource not found") /\
  ErrorHandler (errs ++ [ErrOther other None]) =
    Some (mkJSONCall 500 "INTERNAL_ERROR" "An unexpected error occurred").
Proof.
  split; [reflexivity |]. rewrite !ErrorHandler_last.
  split; [reflexivity |]. split; [| repeat split; reflexivity].
  destruct wrapped as [w |]; reflexivity.
Qed.

(** ** The configuration *)

Example format_int_6379 : format_int 6379 = "6379".
Proof. reflexivity. Qed.

Example format_int_zero : format_int 0 = "0".
Proof. reflexivity. Qed.

Example format_int_min : format_int min_int64 = "-9223372036854775808".
Proof. reflexivity. Qed.

Example GetRedisAddress_sample : result GetRedisAddress sample_config = "localhost:6379".
Proof. reflexivity. Qed.

Lemma ConfigValidate_after (c : Config) : after ConfigValidate c = c.
Proof.
  unfold after, ConfigValidate, bind, self. simpl.
  repeat match goal with
         | |- context [if ?b then _ else _] => destruct b
         end; reflexivity.
Qed.

(** X29: [Config.Validate] returns no error exactly when the MongoDB URI
    and database name, the S3 bucket and both S3 credentials, and the
    RabbitMQ URL are set, and the JWT secret is set to something else
    than the placeholder "change-this-secret-in-production". *)
Theorem ConfigValidate_ok_iff (c : Config) :
  (result ConfigValidate c = None <->
   URI (Database c) <> "" /\ DatabaseName (Database c) <> "" /\
   Bucket (S3 c) <> "" /\
   AccessKeyID (S3 c) <> "" /\ SecretAccessKey (S3 c) <> "" /\
   Secret (JWT c) <> "" /\ Secret (JWT c) <> "change-this-secret-in-production" /\
   URL (RabbitMQ c) <> "") /\
  after ConfigValidate c = c.
Proof.
  split; [| apply ConfigValidate_after].
  unfold result, ConfigValidate, Errorf, bind, self. simpl.
  destruct (String.eqb_spec (URI (Database c)) "");
    [simpl; split; [discriminate | tauto] |].
  destruct (String.eqb_spec (DatabaseName (Database c)) "");
    [simpl; split; [discriminate | tauto] |].
  destruct (String.eqb_spec (Bucket (S3 c)) "");
    [simpl; split; [discriminate | tauto] |].
  destruct (String.eqb_spec (AccessKeyID (S3 c)) "");
    [simpl; split; [discriminate | tauto] |].
  destruct (String.eqb_spec (SecretAccessKey (S3 c)) "");
    [simpl; split; [discriminate | tauto] |].
  destruct (String.eqb_spec (Secret (JWT c)) "");
    [simpl; split; [discriminate | tauto] |].
  destruct (String.eqb_spec (Secret (JWT c)) "change-this-secret-in-production");
    [simpl; split; [discriminate | tauto] |].
  destruct (String.eqb_spec (URL (RabbitMQ c)) "");
    [simpl; split; [discriminate | tauto] |].
  simpl. split; [tauto | reflexivity].
Qed.

(** A configuration is not for development and for production at
    once. *)
Theorem IsDevelopment_IsProduction (c : Config) :
  result IsDevelopment c && result IsProduction c = false.
Proof.
  unfold result, IsDevelopment, IsProduction, bind, self. simpl.
  destruct (String.eqb_spec (Environment (Server c)) "development") as [-> | _];
    reflexivity.
Qed.

(** *** The address of Redis *)

Lemma HasPrefix_byte (c d : ascii) (s : string) :
  HasPrefix (String c s) (String d "") = Ascii.eqb c d.
Proof.
  unfold HasPrefix. cbn [String.prefix].
  destruct (ascii_dec d c) as [<- | Hne].
  - rewrite Ascii.eqb_refl. destruct s; reflexivity.
  - symmetry. apply Ascii.eqb_neq. congruence.
Qed.

Lemma LastIndex_scan_free (d : ascii) (s : string) (i found : Z) :
  byte_free d s = true -> LastIndex_scan s (String d "") i found = found.
Proof.
  revert i found. induction s as [| c s IH]; intros i found Hs; [reflexivity |].
  cbn [byte_free] in Hs. apply andb_prop in Hs as [Hc Hs].
  apply negb_true_iff in Hc.
  cbn [LastIndex_scan]. rewrite HasPrefix_byte, Hc. apply IH, Hs.
Qed.

Lemma LastIndex_scan_split (d : ascii) (p n : string) (i found : Z) :
  byte_free d n = true ->
  LastIndex_scan (p ++ String d n) (String d "") i found = i + len p.
Proof.
  intros Hn. revert i found. induction p as [| c p IH]; intros i found.
  - change ("" ++ String d n) with (String d n).
    cbn [LastIndex_scan]. rewrite HasPrefix_byte, Ascii.eqb_refl.
    rewrite LastIndex_scan_free by exact Hn. change (len "") with 0. lia.
  - rewrite append_String. cbn [LastIndex_scan]. rewrite IH, len_String. lia.
Qed.

Lemma digit_not_colon (k : Z) :
  0 <= k < 10 -> Ascii.eqb (ascii_of_N (48 + Z.to_N k)) ":" = false.
Proof.
  intros Hk.
  assert (Hcases : k = 0 \/ k = 1 \/ k = 2 \/ k = 3 \/ k = 4 \/ k = 5 \/ k = 6 \/
                   k = 7 \/ k = 8 \/ k = 9) by lia.
  repeat (destruct Hcases as [-> | Hcases]; [reflexivity |]). subst k. reflexivity.
Qed.

Lemma digits_no_colon (fuel : nat) (n : Z) (acc : string) :
  byte_free ":" acc = true -> byte_free ":" (digits fuel n acc) = true.
Proof.
  revert n acc. induction fuel as [| fuel IH]; intros n acc Hacc; [exact Hacc |].
  cbn [digits].
  assert (Hacc' : byte_free ":" (String (ascii_of_N (48 + Z.to_N (n mod 10))) acc) = true).
  { cbn [byte_free]. rewrite digit_not_colon by (apply Z.mod_pos_bound; lia). exact Hacc. }
  destruct (n <? 10); [exact Hacc' | apply IH, Hacc'].
Qed.

Lemma format_int_no_colon (n : Z) : byte_free ":" (format_int n) = true.
Proof.
  unfold format_int. destruct (n <? 0).
  - change ("-" ++ digits 19 (- n) "") with (String "-" (digits 19 (- n) "")).
    cbn [byte_free]. rewrite digits_no_colon by reflexivity. reflexivity.
  - apply digits_no_colon. reflexivity.
Qed.

(** X30: the address of Redis splits at its last [":"] into the host and
    the port, whatever the host, with [":"] in it or not: the last [":"]
    is at the length of the host, and the slice before it is the host. *)
Theorem GetRedisAddress_split (c : Config) :
  let addr := result GetRedisAddress c in
  addr = Host (Redis c) ++ ":" ++ format_int (Port (Redis c)) /\
  LastIndex addr ":" = len (Host (Redis c)) /\
  slice_to addr (LastIndex addr ":") = Some (Host (Redis c)).
Proof.
  cbv zeta. change (result GetRedisAddress c)
    with (Host (Redis c) ++ String ":" (format_int (Port (Redis c)))).
  assert (Hlast : LastIndex (Host (Redis c) ++ String ":" (format_int (Port (Redis c)))) ":"
                  = len (Host (Redis c))).
  { unfold LastIndex. rewrite LastIndex_scan_split by apply format_int_no_colon. lia. }
  split; [reflexivity |]. split; [exact Hlast |].
  rewrite Hlast. apply slice_to_append.
Qed.
